(** * State-transition pipeline of go-ethereum's [core] package

    A shallow embedding of [core/state_transition.go] (intrinsic gas, gas
    purchase, nonce check, execution dispatch, refund settlement) and of
    [core/state_processor.go] (transaction application and the per-block
    loop), followed by the properties the specification states about them.

    Conventions.
    - A Go [uint64] is a [Z] in [0, 2^64); every [+], [-] and [++] the
      source performs on a [uint64] is written with its wrap-around
      ([u64_add], [u64_sub]).  A [*big.Int] is an unbounded [Z].
    - A Go [error] is an [option Error]; [None] is [nil].  Functions that
      return [(value, error)] return a pair here as well.
    - Objects reached through pointers ([*GasPool], [*state.StateDB],
      [*uint64]) are threaded explicitly: a function that may mutate one
      returns its new value. *)

From Stdlib Require Import ZArith List Lia Bool.
From Stdlib.Strings Require Import Byte.
From stdpp Require Import base gmap list.
Import ListNotations.
Local Open Scope Z_scope.

(** ** Machine integers *)

Definition MaxUint64 : Z := 18446744073709551615.

Definition wrap64 (z : Z) : Z := z mod 18446744073709551616.

Definition u64_add (a b : Z) : Z := wrap64 (a + b).
Definition u64_sub (a b : Z) : Z := wrap64 (a - b).
Definition u64_mul (a b : Z) : Z := wrap64 (a * b).

(** Go's [/] on unsigned operands truncates; on non-negative [Z] that is
    [Z.div]. *)
Definition u64_div (a b : Z) : Z := Z.div a b.

Definition is_uint64 (z : Z) : Prop := 0 <= z <= MaxUint64.

(** ** Errors

    [ErrOutOfGas] and [ErrInsufficientBalance] are the [vm] package's,
    [ErrExecution] stands for every other error an execution can report
    (the number tells them apart), [ErrSigner] for a failed signer
    resolution; the others are [core]'s own. *)

Inductive Error : Type :=
| ErrNonceTooHigh
| ErrNonceTooLow
| errInsufficientBalanceForGas
| ErrGasLimitReached
| ErrOutOfGas
| ErrInsufficientBalance
| ErrExecution (code : nat)
| ErrSigner.

Definition Error_eqb (a b : Error) : bool :=
  match a, b with
  | ErrNonceTooHigh, ErrNonceTooHigh => true
  | ErrNonceTooLow, ErrNonceTooLow => true
  | errInsufficientBalanceForGas, errInsufficientBalanceForGas => true
  | ErrGasLimitReached, ErrGasLimitReached => true
  | ErrOutOfGas, ErrOutOfGas => true
  | ErrInsufficientBalance, ErrInsufficientBalance => true
  | ErrExecution m, ErrExecution n => Nat.eqb m n
  | ErrSigner, ErrSigner => true
  | _, _ => false
  end.

(** ** Protocol parameters

    [params.TxGas], [params.TxGasContractCreation], [params.TxDataZeroGas]
    and [params.TxDataNonZeroGas] are declared outside the two files
    embedded here, so the development is parametric in them. *)

Record ProtocolParams : Type := {
  TxGas : Z;
  TxGasContractCreation : Z;
  TxDataZeroGas : Z;
  TxDataNonZeroGas : Z
}.

(** The constants are [uint64] values and the two per-byte rates are
    divisors in [IntrinsicGas]. *)
Record params_ok (P : ProtocolParams) : Prop := {
  TxGas_range : is_uint64 (TxGas P);
  TxGasContractCreation_range : is_uint64 (TxGasContractCreation P);
  TxDataZeroGas_range : 0 < TxDataZeroGas P <= MaxUint64;
  TxDataNonZeroGas_range : 0 < TxDataNonZeroGas P <= MaxUint64
}.

(** The values the source's comments quote: 21000 for a call, 53000 for a
    creation, 4 per zero byte and 68 per non-zero byte. *)
Definition frontier_params : ProtocolParams :=
  {| TxGas := 21000; TxGasContractCreation := 53000;
     TxDataZeroGas := 4; TxDataNonZeroGas := 68 |}.

(** A schedule with very large per-byte rates, on which the overflow
    branches of [IntrinsicGas] are reached by payloads of a few bytes. *)
Definition steep_params : ProtocolParams :=
  {| TxGas := 21000; TxGasContractCreation := 53000;
     TxDataZeroGas := 9223372036854775808;
     TxDataNonZeroGas := 9223372036854775808 |}.

(** ** IntrinsicGas *)

Definition byte_is_zero (byt : byte) : bool := Byte.eqb byt x00.

(** The loop [for _, byt := range data { if byt != 0 { nz++ } }]. *)
Fixpoint count_nonzero (data : list byte) (nz : Z) : Z :=
  match data with
  | [] => nz
  | byt :: rest =>
      count_nonzero rest (if byte_is_zero byt then nz else u64_add nz 1)
  end.

(** [uint64(len(data))]. *)
Definition len64 (data : list byte) : Z := wrap64 (Z.of_nat (length data)).

Definition IntrinsicGas (P : ProtocolParams) (data : list byte)
    (contractCreation homestead : bool) : Z * option Error :=
  let gas :=
    if contractCreation && homestead then TxGasContractCreation P
    else TxGas P in
  if 0 <? Z.of_nat (length data) then
    let nz := count_nonzero data 0 in
    if u64_div (u64_sub MaxUint64 gas) (TxDataNonZeroGas P) <? nz then
      (0, Some ErrOutOfGas)
    else
      let gas := u64_add gas (u64_mul nz (TxDataNonZeroGas P)) in
      let z := u64_sub (len64 data) nz in
      if u64_div (u64_sub MaxUint64 gas) (TxDataZeroGas P) <? z then
        (0, Some ErrOutOfGas)
      else
        (u64_add gas (u64_mul z (TxDataZeroGas P)), None)
  else (gas, None).

(** ** GasPool *)

Definition GasPool : Type := Z.

(** Modelled from the spec: [GasPool.AddGas], whose file is not among the
    sources.  "[add(amount)] saturates - if the sum would overflow the
    representable range, it clamps to the maximum representable value
    rather than wrapping." *)
Definition AddGas (amount : Z) (gp : GasPool) : GasPool :=
  if MaxUint64 - amount <? gp then MaxUint64 else gp + amount.

(** Modelled from the spec: [GasPool.SubGas], whose file is not among the
    sources.  "[subtractGas(n)] decreases capacity and fails with
    [GasLimitReached] if [n] exceeds current capacity, leaving capacity
    unchanged on failure." *)
Definition SubGas (amount : Z) (gp : GasPool) : option Error * GasPool :=
  if gp <? amount then (Some ErrGasLimitReached, gp) else (None, gp - amount).

(** ** World state *)

Definition Address : Type := N.
Definition Hash : Type := N.

(** [common.Address{}], the value of an address field that was never
    assigned. *)
Definition zeroAddress : Address := 0%N.

Record Log : Type := {
  log_address : Address;
  log_topics : list Hash;
  log_data : list byte
}.

(** Modelled from the spec: the WorldState capability ([vm.StateDB] and
    [state.StateDB], declared outside the sources): account balances and
    nonces, the refund counter, and the log buffer keyed by transaction
    hash together with the transaction context set by [Prepare].  An
    account that was never written has balance 0 and nonce 0. *)
Record StateDB : Type := {
  balances : gmap N Z;
  nonces : gmap N Z;
  refund : Z;
  logs : gmap N (list Log);
  thash : Hash;
  bhash : Hash;
  txIndex : Z
}.

Definition GetBalance (addr : Address) (s : StateDB) : Z :=
  default 0 (balances s !! addr).

Definition GetNonce (addr : Address) (s : StateDB) : Z :=
  default 0 (nonces s !! addr).

Definition GetRefund (s : StateDB) : Z := refund s.

Definition GetLogs (h : Hash) (s : StateDB) : list Log :=
  default [] (logs s !! h).

Definition with_balances (b : gmap N Z) (s : StateDB) : StateDB :=
  {| balances := b; nonces := nonces s; refund := refund s; logs := logs s;
     thash := thash s; bhash := bhash s; txIndex := txIndex s |}.

Definition AddBalance (addr : Address) (amount : Z) (s : StateDB) : StateDB :=
  with_balances (<[addr := GetBalance addr s + amount]> (balances s)) s.

Definition SubBalance (addr : Address) (amount : Z) (s : StateDB) : StateDB :=
  with_balances (<[addr := GetBalance addr s - amount]> (balances s)) s.

Definition SetNonce (addr : Address) (nonce : Z) (s : StateDB) : StateDB :=
  {| balances := balances s; nonces := <[addr := nonce]> (nonces s);
     refund := refund s; logs := logs s;
     thash := thash s; bhash := bhash s; txIndex := txIndex s |}.

Definition Prepare (th bh : Hash) (ti : Z) (s : StateDB) : StateDB :=
  {| balances := balances s; nonces := nonces s; refund := refund s;
     logs := logs s; thash := th; bhash := bh; txIndex := ti |}.

(** ** Messages, chain configuration and the EVM handle *)

(** The [Message] interface: one field per method. *)
Record Message : Type := {
  From : Address;
  To : option Address;
  GasPrice : Z;
  Gas : Z;
  Value : Z;
  Nonce : Z;
  CheckNonce : bool;
  Data : list byte
}.

(** [params.ChainConfig], as far as the two files consult it. *)
Record ChainConfig : Type := {
  IsHomestead : Z -> bool;
  IsByzantium : Z -> bool;
  IsEIP158 : Z -> bool;
  DAOForkSupport : bool;
  DAOForkBlock : option Z
}.

Definition VMConfig : Type := unit.
Definition ChainContext : Type := unit.

Record Header : Type := {
  Number : Z;
  GasLimit : Z;
  Coinbase : Address
}.

(** [vm.Context], as far as the two files read it. *)
Record Context : Type := {
  Origin : Address;
  ctx_Coinbase : Address;
  ctx_BlockNumber : Z;
  ctx_GasPrice : Z
}.

(** [vm.EVM] without its [StateDB] field: in the source [evm.StateDB] and
    [st.state] point to one object, which is threaded here as a value. *)
Record EVM : Type := {
  evm_Context : Context;
  evm_ChainConfig : ChainConfig;
  evm_vmConfig : VMConfig
}.

(** What [evm.Create] and [evm.Call] hand back: the returned bytes, the
    gas left over, the execution error, and the world state as the
    execution left it. *)
Record ExecResult : Type := {
  exec_ret : list byte;
  exec_gas : Z;
  exec_err : option Error;
  exec_state : StateDB
}.

(** The Executor capability.  The interpreter is outside the two files;
    the pipeline is stated for every implementation of the interface.
    Arguments after the handle: caller, (recipient,) input, gas, value,
    and the world state the execution starts from. *)
Class Executor : Type := {
  evm_Create : EVM -> Address -> list byte -> Z -> Z -> StateDB -> ExecResult;
  evm_Call :
    EVM -> Address -> Address -> list byte -> Z -> Z -> StateDB -> ExecResult
}.

(** ** StateTransition *)

Record StateTransition : Type := {
  gp : GasPool;
  msg : Message;
  gas : Z;
  gasPrice : Z;
  initialGas : Z;
  value : Z;
  data : list byte;
  state : StateDB;
  evm : EVM
}.

Definition with_gp (x : GasPool) (st : StateTransition) : StateTransition :=
  {| gp := x; msg := msg st; gas := gas st; gasPrice := gasPrice st;
     initialGas := initialGas st; value := value st; data := data st;
     state := state st; evm := evm st |}.

Definition with_gas (x : Z) (st : StateTransition) : StateTransition :=
  {| gp := gp st; msg := msg st; gas := x; gasPrice := gasPrice st;
     initialGas := initialGas st; value := value st; data := data st;
     state := state st; evm := evm st |}.

Definition with_initialGas (x : Z) (st : StateTransition) : StateTransition :=
  {| gp := gp st; msg := msg st; gas := gas st; gasPrice := gasPrice st;
     initialGas := x; value := value st; data := data st;
     state := state st; evm := evm st |}.

Definition with_state (x : StateDB) (st : StateTransition) : StateTransition :=
  {| gp := gp st; msg := msg st; gas := gas st; gasPrice := gasPrice st;
     initialGas := initialGas st; value := value st; data := data st;
     state := x; evm := evm st |}.

(** [gas] and [initialGas] are left at their zero value. *)
Definition NewStateTransition (evm : EVM) (statedb : StateDB) (msg : Message)
    (gp : GasPool) : StateTransition :=
  {| gp := gp; msg := msg; gas := 0; gasPrice := GasPrice msg;
     initialGas := 0; value := Value msg; data := Data msg;
     state := statedb; evm := evm |}.

Definition to (st : StateTransition) : Address :=
  match To (msg st) with
  | None => zeroAddress
  | Some a => a
  end.

Definition useGas (amount : Z) (st : StateTransition)
    : option Error * StateTransition :=
  if gas st <? amount then (Some ErrOutOfGas, st)
  else (None, with_gas (u64_sub (gas st) amount) st).

Definition buyGas (st : StateTransition) : option Error * StateTransition :=
  let mgval := Gas (msg st) * gasPrice st in
  if GetBalance (From (msg st)) (state st) <? mgval then
    (Some errInsufficientBalanceForGas, st)
  else
    match SubGas (Gas (msg st)) (gp st) with
    | (Some err, gp') => (Some err, with_gp gp' st)
    | (None, gp') =>
        let st := with_gp gp' st in
        let st := with_gas (u64_add (gas st) (Gas (msg st))) st in
        let st := with_initialGas (Gas (msg st)) st in
        let st :=
          with_state (SubBalance (From (msg st)) mgval (state st)) st in
        (None, st)
    end.

Definition preCheck (st : StateTransition) : option Error * StateTransition :=
  if CheckNonce (msg st) then
    let nonce := GetNonce (From (msg st)) (state st) in
    if nonce <? Nonce (msg st) then (Some ErrNonceTooHigh, st)
    else if Nonce (msg st) <? nonce then (Some ErrNonceTooLow, st)
    else buyGas st
  else buyGas st.

Definition gasUsed (st : StateTransition) : Z :=
  u64_sub (initialGas st) (gas st).

Definition refundGas (st : StateTransition) : StateTransition :=
  let refund := u64_div (gasUsed st) 2 in
  let refund :=
    if GetRefund (state st) <? refund then GetRefund (state st) else refund in
  let st := with_gas (u64_add (gas st) refund) st in
  let remaining := gas st * gasPrice st in
  let st := with_state (AddBalance (From (msg st)) remaining (state st)) st in
  with_gp (AddGas (gas st) (gp st)) st.

(** The four results of [TransitionDb]. *)
Record TransitionResult : Type := {
  ret : list byte;
  usedGas : Z;
  failed : bool;
  err : option Error
}.

Definition is_ErrInsufficientBalance (vmerr : option Error) : bool :=
  match vmerr with
  | Some e => Error_eqb e ErrInsufficientBalance
  | None => false
  end.

Section Transition.

Context (P : ProtocolParams) {X : Executor}.

(** The [if contractCreation { ... } else { ... }] of [TransitionDb]: a
    creation goes to [evm.Create]; a call first stores the sender's
    nonce plus one and then goes to [evm.Call].  Both overwrite [st.gas]
    with the gas left over, and the world state is the one the execution
    leaves. *)
Definition dispatch (contractCreation : bool) (st : StateTransition)
    : list byte * option Error * StateTransition :=
  let sender := From (msg st) in
  if contractCreation then
    let r := evm_Create (evm st) sender (data st) (gas st) (value st)
               (state st) in
    (exec_ret r, exec_err r, with_state (exec_state r) (with_gas (exec_gas r) st))
  else
    let st :=
      with_state
        (SetNonce (From (msg st)) (u64_add (GetNonce sender (state st)) 1)
           (state st)) st in
    let r := evm_Call (evm st) sender (to st) (data st) (gas st) (value st)
               (state st) in
    (exec_ret r, exec_err r, with_state (exec_state r) (with_gas (exec_gas r) st)).

Definition TransitionDb (st : StateTransition)
    : TransitionResult * StateTransition :=
  match preCheck st with
  | (Some e, st) =>
      ({| ret := []; usedGas := 0; failed := false; err := Some e |}, st)
  | (None, st) =>
      let homestead :=
        IsHomestead (evm_ChainConfig (evm st))
          (ctx_BlockNumber (evm_Context (evm st))) in
      let contractCreation :=
        match To (msg st) with None => true | Some _ => false end in
      match IntrinsicGas P (data st) contractCreation homestead with
      | (_, Some e) =>
          ({| ret := []; usedGas := 0; failed := false; err := Some e |}, st)
      | (gas, None) =>
          match useGas gas st with
          | (Some e, st) =>
              ({| ret := []; usedGas := 0; failed := false; err := Some e |},
               st)
          | (None, st) =>
              let '(ret, vmerr, st) := dispatch contractCreation st in
              if is_ErrInsufficientBalance vmerr then
                ({| ret := []; usedGas := 0; failed := false; err := vmerr |},
                 st)
              else
                let st := refundGas st in
                let st :=
                  with_state
                    (AddBalance (ctx_Coinbase (evm_Context (evm st)))
                       (gasUsed st * gasPrice st) (state st)) st in
                ({| ret := ret; usedGas := gasUsed st;
                    failed := match vmerr with Some _ => true | None => false end;
                    err := None |}, st)
          end
      end
  end.

(** What the caller of a finished transition still sees: the four
    results, and the gas pool and world state behind the pointers. *)
Definition leftovers (p : TransitionResult * StateTransition)
    : TransitionResult * GasPool * StateDB :=
  (fst p, gp (snd p), state (snd p)).

Definition ApplyMessage (evm : EVM) (statedb : StateDB) (msg : Message)
    (gp : GasPool) : TransitionResult * GasPool * StateDB :=
  leftovers (TransitionDb (NewStateTransition evm statedb msg gp)).

End Transition.

(** ** Transactions, receipts and blocks *)

(** Modelled from the spec: [types.Transaction], declared outside the
    sources.  A transaction has a hash and a nonce, and converts into a
    Message by resolving its signer, "which may fail with a
    signature/chain-id error": [tx_message] and [tx_signer_err] are the
    two results of [tx.AsMessage]. *)
Record Transaction : Type := {
  tx_Hash : Hash;
  tx_Nonce : Z;
  tx_message : Message;
  tx_signer_err : option Error
}.

Definition AsMessage (tx : Transaction) : Message * option Error :=
  (tx_message tx, tx_signer_err tx).

Definition ReceiptStatusFailed : Z := 0.
Definition ReceiptStatusSuccessful : Z := 1.

(** Modelled from the spec: [types.Receipt], declared outside the
    sources: "success/failure status, cumulative gas used, emitted logs,
    a bloom filter [...] and (if the transaction created a contract) the
    deployed contract's address", with the per-transaction gas, the
    transaction hash and the pre-Byzantium state root the source
    stores. *)
Record Receipt : Type := {
  PostState : list byte;
  Status : Z;
  CumulativeGasUsed : Z;
  Bloom : Z;
  Logs : list Log;
  TxHash : Hash;
  ContractAddress : Address;
  GasUsed : Z
}.

(** [types.NewReceipt(root, failed, cumulativeGasUsed)]; the other fields
    keep their zero values. *)
Definition NewReceipt (root : list byte) (failed : bool)
    (cumulativeGasUsed : Z) : Receipt :=
  {| PostState := root;
     Status := if failed then ReceiptStatusFailed else ReceiptStatusSuccessful;
     CumulativeGasUsed := cumulativeGasUsed;
     Bloom := 0; Logs := []; TxHash := 0%N;
     ContractAddress := zeroAddress; GasUsed := 0 |}.

Record Block : Type := {
  block_Header : Header;
  block_Hash : Hash;
  Transactions : list Transaction;
  Uncles : list Header
}.

(** The collaborators of [state_processor.go] that live outside the
    sources: the state database's [Finalise] and [IntermediateRoot], the
    DAO migration, the consensus engine's [Finalize], the address
    derivation [crypto.CreateAddress] and [types.CreateBloom]. *)
Class Collaborators : Type := {
  Finalise : bool -> StateDB -> StateDB;
  IntermediateRoot : bool -> StateDB -> list byte * StateDB;
  ApplyDAOHardFork : StateDB -> StateDB;
  engine_Finalize :
    Header -> StateDB -> list Transaction -> list Header -> list Receipt ->
    StateDB;
  CreateAddress : Address -> Z -> Address;
  CreateBloom : list Receipt -> Z
}.

(** Modelled from the spec: [NewEVMContext], declared outside the
    sources.  The origin is the message's sender; the fee recipient is
    [author] when given and the header's beneficiary otherwise. *)
Definition NewEVMContext (msg : Message) (header : Header)
    (bc : ChainContext) (author : option Address) : Context :=
  {| Origin := From msg;
     ctx_Coinbase := match author with Some a => a | None => Coinbase header end;
     ctx_BlockNumber := Number header;
     ctx_GasPrice := GasPrice msg |}.

Definition NewEVM (context : Context) (config : ChainConfig) (cfg : VMConfig)
    : EVM :=
  {| evm_Context := context; evm_ChainConfig := config; evm_vmConfig := cfg |}.

(** What a run of [ApplyTransaction] leaves behind in the objects it was
    given pointers to. *)
Record Shared : Type := {
  sh_gp : GasPool;
  sh_statedb : StateDB;
  sh_usedGas : Z
}.

Section Processor.

Context (P : ProtocolParams) {X : Executor} {C : Collaborators}.

(** The source binds the result of [tx.AsMessage] to [sg] and goes on
    with [msg]; the two are read as one variable. *)
Definition ApplyTransaction (config : ChainConfig) (bc : ChainContext)
    (author : option Address) (gp : GasPool) (statedb : StateDB)
    (header : Header) (tx : Transaction) (usedGas : Z) (cfg : VMConfig)
    : option Receipt * Z * option Error * Shared :=
  match AsMessage tx with
  | (_, Some e) =>
      (None, 0, Some e,
       {| sh_gp := gp; sh_statedb := statedb; sh_usedGas := usedGas |})
  | (msg, None) =>
      let context := NewEVMContext msg header bc author in
      let vmenv := NewEVM context config cfg in
      let '(Build_TransitionResult _ gas failed err, gp, statedb) :=
        ApplyMessage P vmenv statedb msg gp in
      match err with
      | Some e =>
          (None, 0, Some e,
           {| sh_gp := gp; sh_statedb := statedb; sh_usedGas := usedGas |})
      | None =>
          let '(root, statedb) :=
            if IsByzantium config (Number header) then
              ([], Finalise true statedb)
            else IntermediateRoot (IsEIP158 config (Number header)) statedb in
          let usedGas := u64_add usedGas gas in
          let receipt := NewReceipt root failed usedGas in
          let receipt :=
            {| PostState := PostState receipt; Status := Status receipt;
               CumulativeGasUsed := CumulativeGasUsed receipt;
               Bloom := Bloom receipt; Logs := GetLogs (tx_Hash tx) statedb;
               TxHash := tx_Hash tx;
               ContractAddress :=
                 match To msg with
                 | None => CreateAddress (Origin (evm_Context vmenv)) (tx_Nonce tx)
                 | Some _ => ContractAddress receipt
                 end;
               GasUsed := gas |} in
          let receipt :=
            {| PostState := PostState receipt; Status := Status receipt;
               CumulativeGasUsed := CumulativeGasUsed receipt;
               Bloom := CreateBloom [receipt]; Logs := Logs receipt;
               TxHash := TxHash receipt;
               ContractAddress := ContractAddress receipt;
               GasUsed := GasUsed receipt |} in
          (Some receipt, gas, None,
           {| sh_gp := gp; sh_statedb := statedb; sh_usedGas := usedGas |})
      end
  end.

(** The four results of [Process]. *)
Record ProcessResult : Type := {
  res_receipts : list Receipt;
  res_logs : list Log;
  res_usedGas : Z;
  res_err : option Error
}.

(** The [for i, tx := range block.Transactions()] loop of [Process],
    from index [i] on, together with what follows it.  [txs] is what is
    left of the block's transactions. *)
Fixpoint Process_loop (config : ChainConfig) (bc : ChainContext)
    (block : Block) (cfg : VMConfig) (txs : list Transaction) (i : Z)
    (receipts : list Receipt) (allLogs : list Log) (sh : Shared)
    : ProcessResult * StateDB :=
  match txs with
  | [] =>
      let statedb :=
        engine_Finalize (block_Header block) (sh_statedb sh)
          (Transactions block) (Uncles block) receipts in
      ({| res_receipts := receipts; res_logs := allLogs;
          res_usedGas := sh_usedGas sh; res_err := None |}, statedb)
  | tx :: rest =>
      let statedb := Prepare (tx_Hash tx) (block_Hash block) i (sh_statedb sh) in
      match ApplyTransaction config bc None (sh_gp sh) statedb
              (block_Header block) tx (sh_usedGas sh) cfg with
      | (_, _, Some e, sh') =>
          ({| res_receipts := []; res_logs := []; res_usedGas := 0;
              res_err := Some e |}, sh_statedb sh')
      | (None, _, None, sh') =>
          (* not reached: a nil error comes with a receipt *)
          ({| res_receipts := []; res_logs := []; res_usedGas := 0;
              res_err := None |}, sh_statedb sh')
      | (Some receipt, _, None, sh') =>
          Process_loop config bc block cfg rest (i + 1)
            (receipts ++ [receipt]) (allLogs ++ Logs receipt) sh'
      end
  end.

Definition Process (config : ChainConfig) (bc : ChainContext) (block : Block)
    (statedb : StateDB) (cfg : VMConfig) : ProcessResult * StateDB :=
  let gp := AddGas (GasLimit (block_Header block)) 0 in
  let statedb :=
    if DAOForkSupport config
       && match DAOForkBlock config with
          | Some n => Z.eqb n (Number (block_Header block))
          | None => false
          end
    then ApplyDAOHardFork statedb else statedb in
  Process_loop config bc block cfg (Transactions block) 0 [] []
    {| sh_gp := gp; sh_statedb := statedb; sh_usedGas := 0 |}.

End Processor.

(** ** Vocabulary of the properties *)

(** The number of non-zero bytes of a payload, counted without a machine
    counter. *)
Fixpoint nonzero_bytes (data : list byte) : Z :=
  match data with
  | [] => 0
  | byt :: rest => (if byte_is_zero byt then 0 else 1) + nonzero_bytes rest
  end.

Definition zero_bytes (data : list byte) : Z :=
  Z.of_nat (length data) - nonzero_bytes data.

Definition base_gas (P : ProtocolParams) (contractCreation homestead : bool)
    : Z :=
  if contractCreation && homestead then TxGasContractCreation P else TxGas P.

(** The specification's overflow policy, over unbounded integers: each
    per-byte term is admitted only if
    [(max - runningTotal) / rate >= count]. *)
Definition nonzero_term_fits (P : ProtocolParams) (data : list byte)
    (contractCreation homestead : bool) : bool :=
  nonzero_bytes data
  <=? (MaxUint64 - base_gas P contractCreation homestead)
      / TxDataNonZeroGas P.

Definition zero_term_fits (P : ProtocolParams) (data : list byte)
    (contractCreation homestead : bool) : bool :=
  zero_bytes data
  <=? (MaxUint64
       - (base_gas P contractCreation homestead
          + nonzero_bytes data * TxDataNonZeroGas P))
      / TxDataZeroGas P.

(** The intrinsic gas as an unbounded integer. *)
Definition exact_intrinsic_gas (P : ProtocolParams) (data : list byte)
    (contractCreation homestead : bool) : Z :=
  base_gas P contractCreation homestead
  + nonzero_bytes data * TxDataNonZeroGas P
  + zero_bytes data * TxDataZeroGas P.

Definition is_creation (m : Message) : bool :=
  match To m with None => true | Some _ => false end.

Definition homestead_at (e : EVM) : bool :=
  IsHomestead (evm_ChainConfig e) (ctx_BlockNumber (evm_Context e)).

(** [TransitionDb] gets as far as the dispatch: the pre-check leaves
    [st1], the intrinsic gas is [g], and deducting it leaves [st2]. *)
Definition reaches_dispatch (P : ProtocolParams) (st0 st1 : StateTransition)
    (g : Z) (st2 : StateTransition) : Prop :=
  preCheck st0 = (None, st1)
  /\ IntrinsicGas P (data st1) (is_creation (msg st1)) (homestead_at (evm st1))
     = (g, None)
  /\ useGas g st1 = (None, st2).

(** The result [TransitionDb] reports on each of its error returns. *)
Definition rejected (e : Error) : TransitionResult :=
  {| ret := []; usedGas := 0; failed := false; err := Some e |}.

(** The execution [dispatch] starts from a transition: [evm.Create] on the
    world state as it is for a creation, [evm.Call] on the world state
    with the sender's nonce stored as one more for a call. *)
Definition execution {X : Executor} (st : StateTransition) : ExecResult :=
  match To (msg st) with
  | None =>
      evm_Create (evm st) (From (msg st)) (data st) (gas st) (value st)
        (state st)
  | Some recipient =>
      evm_Call (evm st) (From (msg st)) recipient (data st) (gas st)
        (value st)
        (SetNonce (From (msg st))
           (u64_add (GetNonce (From (msg st)) (state st)) 1) (state st))
  end.

(** The transition once an execution has returned: its gas counter and
    world state are the execution's. *)
Definition executed (r : ExecResult) (st : StateTransition) : StateTransition :=
  with_state (exec_state r) (with_gas (exec_gas r) st).

Definition is_failure (vmerr : option Error) : bool :=
  match vmerr with Some _ => true | None => false end.

(** The intrinsic-gas step of [TransitionDb] fails on the transition the
    pre-check left: the computation overflows, or the working gas counter
    is below the intrinsic gas. *)
Definition intrinsic_deduction_fails (P : ProtocolParams)
    (st : StateTransition) : bool :=
  match IntrinsicGas P (data st) (is_creation (msg st)) (homestead_at (evm st))
  with
  | (_, Some _) => true
  | (g, None) => gas st <? g
  end.

(** The root-hash bookkeeping of [ApplyTransaction]: after Byzantium the
    state is finalised and no root is recorded, before it the
    intermediate root is. *)
Definition post_root {C : Collaborators} (config : ChainConfig)
    (header : Header) (statedb : StateDB) : list byte * StateDB :=
  if IsByzantium config (Number header) then ([], Finalise true statedb)
  else IntermediateRoot (IsEIP158 config (Number header)) statedb.

(** What [Process] hands to its loop: a pool of the block's gas limit,
    the world state after the DAO migration when it is due, and a zero
    gas total. *)
Definition block_start {C : Collaborators} (config : ChainConfig)
    (block : Block) (statedb : StateDB) : Shared :=
  {| sh_gp := AddGas (GasLimit (block_Header block)) 0;
     sh_statedb :=
       if DAOForkSupport config
          && match DAOForkBlock config with
             | Some n => Z.eqb n (Number (block_Header block))
             | None => false
             end
       then ApplyDAOHardFork statedb else statedb;
     sh_usedGas := 0 |}.

(** The loop's call of [ApplyTransaction] for the transaction at index
    [i]. *)
Definition apply_at (P : ProtocolParams) {X : Executor} {C : Collaborators}
    (config : ChainConfig) (bc : ChainContext) (block : Block)
    (cfg : VMConfig) (tx : Transaction) (i : Z) (sh : Shared)
    : option Receipt * Z * option Error * Shared :=
  ApplyTransaction P config bc None (sh_gp sh)
    (Prepare (tx_Hash tx) (block_Hash block) i (sh_statedb sh))
    (block_Header block) tx (sh_usedGas sh) cfg.

(** Applying a run of transactions in list order from index [i], each
    on what the previous one left; [None] as soon as one of them does
    not yield a receipt. *)
Fixpoint apply_prefix (P : ProtocolParams) {X : Executor} {C : Collaborators}
    (config : ChainConfig) (bc : ChainContext) (block : Block)
    (cfg : VMConfig) (txs : list Transaction) (i : Z)
    (receipts : list Receipt) (allLogs : list Log) (sh : Shared)
    : option (list Receipt * list Log * Shared) :=
  match txs with
  | [] => Some (receipts, allLogs, sh)
  | tx :: rest =>
      match apply_at P config bc block cfg tx i sh with
      | (Some receipt, _, None, sh') =>
          apply_prefix P config bc block cfg rest (i + 1)
            (receipts ++ [receipt]) (allLogs ++ Logs receipt) sh'
      | _ => None
      end
  end.

(** ** Sample collaborators and inputs *)

Definition with_refund (r : Z) (s : StateDB) : StateDB :=
  {| balances := balances s; nonces := nonces s; refund := r; logs := logs s;
     thash := thash s; bhash := bhash s; txIndex := txIndex s |}.

(** An executor that uses [used] gas (all of it when less is supplied),
    reports [e], and leaves the refund counter at [refunded]. *)
Definition scripted (used : Z) (e : option Error) (refunded : Z) : Executor :=
  {| evm_Create := fun _ _ _ gas _ s =>
       {| exec_ret := []; exec_gas := if used <=? gas then gas - used else 0;
          exec_err := e; exec_state := with_refund refunded s |};
     evm_Call := fun _ _ _ _ gas _ s =>
       {| exec_ret := []; exec_gas := if used <=? gas then gas - used else 0;
          exec_err := e; exec_state := with_refund refunded s |} |}.

Definition plain_collaborators : Collaborators :=
  {| Finalise := fun _ s => s;
     IntermediateRoot := fun _ s => ([x01], s);
     ApplyDAOHardFork := fun s => s;
     engine_Finalize := fun _ s _ _ _ => s;
     CreateAddress := fun a n => (1000 * a + Z.to_N n + 1)%N;
     CreateBloom := fun rs => Z.of_nat (length (concat (map Logs rs))) |}.

Definition alice : Address := 1%N.
Definition bob : Address := 2%N.
Definition miner : Address := 9%N.

Definition genesis : StateDB :=
  {| balances := <[alice := 1000000]> ∅; nonces := <[alice := 5]> ∅;
     refund := 0; logs := ∅; thash := 0%N; bhash := 0%N; txIndex := 0 |}.

Definition always_on : ChainConfig :=
  {| IsHomestead := fun _ => true; IsByzantium := fun _ => true;
     IsEIP158 := fun _ => true; DAOForkSupport := false;
     DAOForkBlock := None |}.

Definition header7 : Header :=
  {| Number := 7; GasLimit := 100000; Coinbase := miner |}.

(** A call from [alice] to [bob] with [limit] gas at price 2. *)
Definition transfer (limit nonce : Z) : Message :=
  {| From := alice; To := Some bob; GasPrice := 2; Gas := limit; Value := 10;
     Nonce := nonce; CheckNonce := true; Data := [] |}.

(** A contract creation by [alice] with a two-byte payload. *)
Definition deploy (limit nonce : Z) : Message :=
  {| From := alice; To := None; GasPrice := 2; Gas := limit; Value := 0;
     Nonce := nonce; CheckNonce := true; Data := [x60; x00] |}.

Definition evm7 (m : Message) : EVM :=
  NewEVM (NewEVMContext m header7 tt None) always_on tt.

Definition signed (h : Hash) (m : Message) : Transaction :=
  {| tx_Hash := h; tx_Nonce := Nonce m; tx_message := m;
     tx_signer_err := None |}.

Definition block7 (txs : list Transaction) : Block :=
  {| block_Header := header7; block_Hash := 77%N; Transactions := txs;
     Uncles := [] |}.

(** [alice]'s call with 50000 gas, before and after the steps that
    precede the dispatch on the frontier schedule (intrinsic gas
    21000). *)
Definition call0 : StateTransition :=
  NewStateTransition (evm7 (transfer 50000 5)) genesis (transfer 50000 5)
    100000.
Definition call1 : StateTransition := snd (preCheck call0).
Definition call2 : StateTransition := snd (useGas 21000 call1).

(** A call that cannot pay its intrinsic gas: 20000 gas against 21000. *)
Definition short0 : StateTransition :=
  NewStateTransition (evm7 (transfer 20000 5)) genesis (transfer 20000 5)
    100000.
Definition short1 : StateTransition := snd (preCheck short0).

(** [alice]'s creation as the block loop sets it up for the first
    transaction of a block with hash 77. *)
Definition deploy_tx : Transaction := signed 11%N (deploy 60000 5).

Definition first_in_block : Shared :=
  {| sh_gp := 100000; sh_statedb := genesis; sh_usedGas := 0 |}.

Definition loop_deploy0 : StateTransition :=
  NewStateTransition (evm7 (deploy 60000 5))
    (Prepare 11%N 77%N 0 genesis) (deploy 60000 5) 100000.
Definition loop_deploy1 : StateTransition := snd (preCheck loop_deploy0).
Definition loop_deploy2 : StateTransition := snd (useGas 53072 loop_deploy1).

(** The receipt of an application, when there is one. *)
Definition receipt_of (out : option Receipt * Z * option Error * Shared)
    : Receipt :=
  default (NewReceipt [] true 0) (fst (fst (fst out))).

(** [alice]'s creation applied on its own, with an execution that uses
    1000 gas and succeeds. *)
Definition deploy_applied : option Receipt * Z * option Error * Shared :=
  ApplyTransaction (X := scripted 1000 None 0) (C := plain_collaborators)
    frontier_params always_on tt None 100000 genesis header7 deploy_tx 0 tt.

(** A block with a gas limit of 30000 and three plain transfers asking
    for 21000 gas each, under an execution that uses no gas: the pool
    holds 9000 after the first, which the second cannot be bought
    from. *)
Definition header30 : Header :=
  {| Number := 7; GasLimit := 30000; Coinbase := miner |}.

Definition crowded : Block :=
  {| block_Header := header30; block_Hash := 77%N;
     Transactions :=
       [signed 21%N (transfer 21000 5); signed 22%N (transfer 21000 6);
        signed 23%N (transfer 21000 7)];
     Uncles := [] |}.

Definition crowded_prefix : option (list Receipt * list Log * Shared) :=
  apply_prefix (X := scripted 0 None 0) (C := plain_collaborators)
    frontier_params always_on tt crowded tt [signed 21%N (transfer 21000 5)]
    0 [] [] (block_start (C := plain_collaborators) always_on crowded genesis).

Definition crowded_after_first : list Receipt * list Log * Shared :=
  default ([], [], first_in_block) crowded_prefix.

(** The specification's first end-to-end scenario: a block with a gas
    limit of 21000 holding one plain transfer of 21000 gas at price 1,
    from an account holding 1000000. *)
Definition header21 : Header :=
  {| Number := 7; GasLimit := 21000; Coinbase := miner |}.

Definition plain_transfer : Message :=
  {| From := alice; To := Some bob; GasPrice := 1; Gas := 21000; Value := 0;
     Nonce := 5; CheckNonce := true; Data := [] |}.

Definition single : Block :=
  {| block_Header := header21; block_Hash := 78%N;
     Transactions := [signed 31%N plain_transfer]; Uncles := [] |}.

(** ** Vocabulary of the further properties *)

(** An executor that hands back no more gas than it was given and leaves
    a refund counter that is not negative - what the [uint64] results of
    [evm.Create], [evm.Call] and [GetRefund] amount to for an execution
    that only ever spends gas. *)
Definition well_behaved (X : Executor) : Prop :=
  (forall e caller input g v s,
      0 <= g ->
      0 <= exec_gas (evm_Create e caller input g v s) <= g
      /\ 0 <= GetRefund (exec_state (evm_Create e caller input g v s)))
  /\ (forall e caller recipient input g v s,
         0 <= g ->
         0 <= exec_gas (evm_Call e caller recipient input g v s) <= g
         /\ 0 <= GetRefund
                   (exec_state (evm_Call e caller recipient input g v s))).

(** An executor whose calls leave the nonce of [addr] as they found
    it. *)
Definition call_keeps_nonce (X : Executor) (addr : Address) : Prop :=
  forall e caller recipient input g v s,
    GetNonce addr (exec_state (evm_Call e caller recipient input g v s))
    = GetNonce addr s.

(** The six errors [TransitionDb] can return. *)
Definition transition_errors : list Error :=
  [ErrNonceTooHigh; ErrNonceTooLow; errInsufficientBalanceForGas;
   ErrGasLimitReached; ErrOutOfGas; ErrInsufficientBalance].

(** The running totals [*usedGas += gas] goes through, from [start], for
    the per-transaction amounts [gs]. *)
Fixpoint running_totals (start : Z) (gs : list Z) : list Z :=
  match gs with
  | [] => []
  | g :: rest => u64_add start g :: running_totals (u64_add start g) rest
  end.

(** The sum of a list of amounts as an unbounded integer. *)
Definition total_of (gs : list Z) : Z := foldr Z.add 0 gs.

(** A block with room to spare: two calls by [alice], of 50000 and of
    30000 gas, against a gas limit of 100000. *)
Definition roomy : Block :=
  block7 [signed 51%N (transfer 50000 5); signed 52%N (transfer 30000 6)].

(** ** Machine arithmetic *)

Lemma wrap64_small z : is_uint64 z -> wrap64 z = z.
Proof.
  unfold is_uint64, wrap64, MaxUint64. intros Hz.
  apply Z.mod_small. lia.
Qed.

Lemma wrap64_range z : is_uint64 (wrap64 z).
Proof.
  unfold is_uint64, wrap64, MaxUint64.
  pose proof (Z.mod_pos_bound z 18446744073709551616 ltac:(lia)). lia.
Qed.

Lemma u64_add_exact a b : is_uint64 (a + b) -> u64_add a b = a + b.
Proof. apply wrap64_small. Qed.

Lemma u64_sub_exact a b : is_uint64 (a - b) -> u64_sub a b = a - b.
Proof. apply wrap64_small. Qed.

Lemma u64_mul_exact a b : is_uint64 (a * b) -> u64_mul a b = a * b.
Proof. apply wrap64_small. Qed.

(** Floor division against a positive rate: the guard of [IntrinsicGas]
    holds exactly when the product fits under the bound. *)
Lemma div_guard (bound rate count : Z) :
  0 < rate -> (count <= bound / rate <-> count * rate <= bound).
Proof.
  intros Hr. split; intros H.
  - pose proof (Z.mul_div_le bound rate Hr). nia.
  - apply Z.div_le_lower_bound; lia.
Qed.

(** ** Intrinsic gas *)

Lemma nonzero_bytes_range data :
  0 <= nonzero_bytes data <= Z.of_nat (length data).
Proof.
  induction data as [|byt rest IH]; cbn [nonzero_bytes length].
  - lia.
  - destruct (byte_is_zero byt); lia.
Qed.

(** The machine counter agrees with the count as long as it cannot
    wrap. *)
Lemma count_nonzero_exact data : forall nz,
  0 <= nz -> nz + Z.of_nat (length data) <= MaxUint64 ->
  count_nonzero data nz = nz + nonzero_bytes data.
Proof.
  induction data as [|byt rest IH]; intros nz Hnz Hlen;
    cbn [count_nonzero nonzero_bytes length] in *.
  - lia.
  - destruct (byte_is_zero byt).
    + rewrite IH by lia. lia.
    + rewrite u64_add_exact by (unfold is_uint64; lia).
      rewrite IH by lia. lia.
Qed.

Lemma base_gas_range P cc hs : params_ok P -> is_uint64 (base_gas P cc hs).
Proof.
  intros [H1 H2 _ _]. unfold base_gas. destruct (cc && hs); assumption.
Qed.

(** What [IntrinsicGas] computes, with its two guards spelled out over
    unbounded integers. *)
Lemma IntrinsicGas_guards P data cc hs :
  params_ok P -> Z.of_nat (length data) <= MaxUint64 ->
  IntrinsicGas P data cc hs
  = if nonzero_term_fits P data cc hs then
      if zero_term_fits P data cc hs
      then (exact_intrinsic_gas P data cc hs, None)
      else (0, Some ErrOutOfGas)
    else (0, Some ErrOutOfGas).
Proof.
  intros HP Hlen.
  pose proof (base_gas_range P cc hs HP) as Hbase.
  pose proof (nonzero_bytes_range data) as Hnz.
  destruct HP as [_ _ [Hz0 Hz1] [Hn0 Hn1]].
  unfold IntrinsicGas, nonzero_term_fits, zero_term_fits, exact_intrinsic_gas,
    zero_bytes.
  fold (base_gas P cc hs).
  set (base := base_gas P cc hs) in *.
  set (nz := nonzero_bytes data) in *.
  unfold is_uint64 in Hbase.
  destruct (0 <? Z.of_nat (length data)) eqn:Hpos.
  - rewrite count_nonzero_exact by lia. rewrite Z.add_0_l. fold nz.
    unfold u64_div.
    rewrite (u64_sub_exact MaxUint64 base) by (unfold is_uint64; lia).
    rewrite (Z.ltb_antisym nz).
    destruct (nz <=? (MaxUint64 - base) / TxDataNonZeroGas P) eqn:Hfit1;
      cbn [negb]; [|reflexivity].
    apply Z.leb_le in Hfit1. apply div_guard in Hfit1; [|lia].
    rewrite (u64_mul_exact nz) by (unfold is_uint64; nia).
    rewrite (u64_add_exact base) by (unfold is_uint64; nia).
    unfold len64. rewrite wrap64_small by (unfold is_uint64; lia).
    rewrite (u64_sub_exact (Z.of_nat (length data)))
      by (unfold is_uint64; lia).
    rewrite (u64_sub_exact MaxUint64) by (unfold is_uint64; nia).
    rewrite (Z.ltb_antisym (Z.of_nat (length data) - nz)).
    destruct (Z.of_nat (length data) - nz
              <=? (MaxUint64 - (base + nz * TxDataNonZeroGas P))
                  / TxDataZeroGas P) eqn:Hfit2;
      cbn [negb]; [|reflexivity].
    apply Z.leb_le in Hfit2. apply div_guard in Hfit2; [|lia].
    rewrite u64_mul_exact by (unfold is_uint64; nia).
    rewrite u64_add_exact by (unfold is_uint64; nia).
    reflexivity.
  - apply Z.ltb_ge in Hpos.
    assert (Hl : Z.of_nat (length data) = 0) by lia.
    assert (Hnz0 : nz = 0) by lia.
    rewrite Hl, Hnz0. rewrite Z.mul_0_l, Z.sub_0_r, !Z.add_0_r.
    assert (H1 : (0 <=? (MaxUint64 - base) / TxDataNonZeroGas P) = true).
    { apply Z.leb_le. apply Z.div_pos; lia. }
    assert (H2 : (0 <=? (MaxUint64 - base) / TxDataZeroGas P) = true).
    { apply Z.leb_le. apply Z.div_pos; lia. }
    rewrite H1, H2. reflexivity.
Qed.

(** Both guards pass exactly when the unbounded total is a [uint64]. *)
Lemma guards_iff_fits P data cc hs :
  params_ok P ->
  nonzero_term_fits P data cc hs && zero_term_fits P data cc hs = true
  <-> exact_intrinsic_gas P data cc hs <= MaxUint64.
Proof.
  intros HP.
  pose proof (base_gas_range P cc hs HP) as Hbase.
  pose proof (nonzero_bytes_range data) as Hnz.
  destruct HP as [_ _ [Hz0 Hz1] [Hn0 Hn1]].
  unfold nonzero_term_fits, zero_term_fits, exact_intrinsic_gas, zero_bytes.
  unfold is_uint64 in Hbase.
  rewrite andb_true_iff, !Z.leb_le, !div_guard by lia.
  split; [intros [H1 H2]; lia | intros H; split; nia].
Qed.

Lemma frontier_params_ok : params_ok frontier_params.
Proof. constructor; unfold is_uint64, MaxUint64; cbn; lia. Qed.

Lemma steep_params_ok : params_ok steep_params.
Proof. constructor; unfold is_uint64, MaxUint64; cbn; lia. Qed.

(** C5.  For every payload (of a length a slice can have) the intrinsic
    gas is guarded term by term: when the non-zero-byte guard
    [(MaxUint64 - base) / nonZeroRate >= nonZeroCount] fails, or when the
    zero-byte guard [(MaxUint64 - runningTotal) / zeroRate >= zeroCount]
    fails, the result is [ErrOutOfGas] (with value 0); when both hold the
    result is the exact, unwrapped total, which then fits in 64 bits.  A
    value returned without error is therefore never a wrapped one. *)
Theorem IntrinsicGas_overflow_checked P data cc hs :
  params_ok P -> Z.of_nat (length data) <= MaxUint64 ->
  (nonzero_term_fits P data cc hs = false
   \/ zero_term_fits P data cc hs = false ->
   IntrinsicGas P data cc hs = (0, Some ErrOutOfGas))
  /\ (nonzero_term_fits P data cc hs = true ->
      zero_term_fits P data cc hs = true ->
      IntrinsicGas P data cc hs = (exact_intrinsic_gas P data cc hs, None)
      /\ exact_intrinsic_gas P data cc hs <= MaxUint64)
  /\ (forall g, IntrinsicGas P data cc hs = (g, None) ->
      g = exact_intrinsic_gas P data cc hs /\ is_uint64 g)
  /\ (MaxUint64 < exact_intrinsic_gas P data cc hs ->
      IntrinsicGas P data cc hs = (0, Some ErrOutOfGas)).
Proof.
  intros HP Hlen.
  pose proof (IntrinsicGas_guards P data cc hs HP Hlen) as Hg.
  pose proof (guards_iff_fits P data cc hs HP) as Hfit.
  assert (Hlow : 0 <= exact_intrinsic_gas P data cc hs).
  { pose proof (base_gas_range P cc hs HP) as Hb.
    pose proof (nonzero_bytes_range data) as Hn.
    destruct HP as [_ _ [Hz0 _] [Hn0 _]].
    unfold exact_intrinsic_gas, zero_bytes, is_uint64 in *. nia. }
  destruct (nonzero_term_fits P data cc hs) eqn:H1;
    destruct (zero_term_fits P data cc hs) eqn:H2; cbn [andb] in Hfit.
  - repeat split.
    + intros [H | H]; discriminate H.
    + assumption.
    + apply Hfit. reflexivity.
    + rewrite Hg in H. congruence.
    + rewrite Hg in H. injection H as <-. assumption.
    + rewrite Hg in H. injection H as <-. apply Hfit. reflexivity.
    + intros Hover. apply proj1 in Hfit. specialize (Hfit eq_refl). lia.
  - repeat split; try (intros; assumption); try discriminate.
    all: intros; rewrite Hg in *; discriminate.
  - repeat split; try (intros; assumption); try discriminate.
    all: intros; rewrite Hg in *; discriminate.
  - repeat split; try (intros; assumption); try discriminate.
    all: intros; rewrite Hg in *; discriminate.
Qed.

(** On the steep schedule a three-byte payload passes the non-zero-byte
    guard and fails the zero-byte guard. *)
Lemma IntrinsicGas_overflow_checked_witness :
  params_ok steep_params
  /\ Z.of_nat (length [x01; x00; x00]) <= MaxUint64
  /\ IntrinsicGas steep_params [x01; x00; x00] false true
     = (0, Some ErrOutOfGas).
Proof.
  split; [exact steep_params_ok|].
  split; [vm_compute; discriminate|].
  apply (proj1 (IntrinsicGas_overflow_checked steep_params [x01; x00; x00]
                  false true steep_params_ok
                  ltac:(vm_compute; discriminate))).
  right. reflexivity.
Defined.

(** ** Gas purchase and the pre-check *)

Lemma with_gp_same st : with_gp (gp st) st = st.
Proof. destruct st; reflexivity. Qed.

(** [buyGas] in one piece: two guards, then the four updates. *)
Lemma buyGas_cases st :
  buyGas st
  = if GetBalance (From (msg st)) (state st) <? Gas (msg st) * gasPrice st
    then (Some errInsufficientBalanceForGas, st)
    else if gp st <? Gas (msg st)
    then (Some ErrGasLimitReached, st)
    else (None,
          {| gp := gp st - Gas (msg st); msg := msg st;
             gas := u64_add (gas st) (Gas (msg st)); gasPrice := gasPrice st;
             initialGas := Gas (msg st); value := value st; data := data st;
             state :=
               SubBalance (From (msg st)) (Gas (msg st) * gasPrice st)
                 (state st);
             evm := evm st |}).
Proof.
  unfold buyGas, SubGas.
  destruct (GetBalance (From (msg st)) (state st)
            <? Gas (msg st) * gasPrice st); [reflexivity|].
  destruct (gp st <? Gas (msg st)).
  - rewrite with_gp_same. reflexivity.
  - reflexivity.
Qed.

Lemma GetBalance_SubBalance addr amount s :
  GetBalance addr (SubBalance addr amount s) = GetBalance addr s - amount.
Proof.
  unfold GetBalance at 1. unfold SubBalance, with_balances. cbn [balances].
  rewrite lookup_insert_eq. reflexivity.
Qed.

(** A message's pre-check passes only through a successful purchase. *)
Lemma preCheck_ok_buyGas st st1 :
  preCheck st = (None, st1) -> buyGas st = (None, st1).
Proof.
  unfold preCheck. intros Hpre.
  destruct (CheckNonce (msg st)); [|exact Hpre].
  destruct (GetNonce (From (msg st)) (state st) <? Nonce (msg st));
    [discriminate|].
  destruct (Nonce (msg st) <? GetNonce (From (msg st)) (state st));
    [discriminate | exact Hpre].
Qed.

(** The transition at the point of dispatch, for a fresh transition:
    the purchase is in place and the intrinsic gas has been deducted. *)
Lemma reaches_dispatch_fresh P (e : EVM) statedb m pool st1 g st2 :
  is_uint64 (Gas m) ->
  reaches_dispatch P (NewStateTransition e statedb m pool) st1 g st2 ->
  st2 = {| gp := pool - Gas m; msg := m; gas := u64_sub (Gas m) g;
           gasPrice := GasPrice m; initialGas := Gas m; value := Value m;
           data := Data m;
           state := SubBalance (From m) (Gas m * GasPrice m) statedb;
           evm := e |}
  /\ st1 = with_gas (Gas m) st2
  /\ g <= Gas m
  /\ Gas m * GasPrice m <= GetBalance (From m) statedb
  /\ Gas m <= pool.
Proof.
  intros HG (Hpre & _ & Huse).
  apply preCheck_ok_buyGas in Hpre. rewrite buyGas_cases in Hpre.
  cbn [NewStateTransition msg state gp gasPrice gas] in Hpre.
  rewrite u64_add_exact in Hpre by (rewrite Z.add_0_l; exact HG).
  rewrite Z.add_0_l in Hpre.
  destruct (Z.ltb_spec (GetBalance (From m) statedb) (Gas m * GasPrice m));
    [discriminate|].
  destruct (Z.ltb_spec pool (Gas m)); [discriminate|].
  injection Hpre as <-. unfold useGas in Huse. cbn [gas] in Huse.
  destruct (Z.ltb_spec (Gas m) g); [discriminate|].
  injection Huse as <-. repeat split; assumption.
Qed.

(** C2.  Gas purchase on a fresh transition.  The cost is
    [gasLimit * gasPrice]; a balance below it fails with
    [errInsufficientBalanceForGas], a pool below [gasLimit] with
    [ErrGasLimitReached]; whatever the failure, the transition (its world
    state and its gas pool included) is returned unchanged.  Otherwise
    the purchase succeeds: the working gas counter and [initialGas] both
    equal [gasLimit], the pool is down by [gasLimit], and the sender's
    balance is down by the cost - which is the state every later step,
    the dispatch included, starts from. *)
Theorem buyGas_purchase (e : EVM) statedb m pool :
  is_uint64 (Gas m) ->
  let st := NewStateTransition e statedb m pool in
  let cost := Gas m * GasPrice m in
  (GetBalance (From m) statedb < cost ->
   buyGas st = (Some errInsufficientBalanceForGas, st))
  /\ (cost <= GetBalance (From m) statedb -> pool < Gas m ->
      buyGas st = (Some ErrGasLimitReached, st))
  /\ (forall err st', buyGas st = (Some err, st') ->
      st' = st /\ state st' = statedb /\ gp st' = pool
      /\ (err = errInsufficientBalanceForGas \/ err = ErrGasLimitReached))
  /\ (cost <= GetBalance (From m) statedb -> Gas m <= pool ->
      exists st',
        buyGas st = (None, st')
        /\ gas st' = Gas m /\ initialGas st' = Gas m
        /\ gp st' = pool - Gas m
        /\ state st' = SubBalance (From m) cost statedb
        /\ GetBalance (From m) (state st')
           = GetBalance (From m) statedb - cost)
  /\ (forall P st1 g st2, reaches_dispatch P st st1 g st2 ->
      state st2 = SubBalance (From m) cost statedb
      /\ gp st2 = pool - Gas m).
Proof.
  intros HG st cost.
  pose proof (buyGas_cases st) as Hb. subst st cost.
  cbn [NewStateTransition msg state gp gasPrice gas] in Hb.
  rewrite u64_add_exact in Hb by (rewrite Z.add_0_l; exact HG).
  rewrite Z.add_0_l in Hb.
  repeat split.
  - intros Hlt. rewrite Hb.
    destruct (Z.ltb_spec (GetBalance (From m) statedb) (Gas m * GasPrice m));
      [reflexivity | lia].
  - intros Hle Hpool. rewrite Hb.
    destruct (Z.ltb_spec (GetBalance (From m) statedb) (Gas m * GasPrice m));
      [lia|].
    destruct (Z.ltb_spec pool (Gas m)); [reflexivity | lia].
  - rewrite Hb in H.
    destruct (GetBalance (From m) statedb <? Gas m * GasPrice m);
      [congruence|].
    destruct (pool <? Gas m); [congruence | discriminate].
  - rewrite Hb in H.
    destruct (GetBalance (From m) statedb <? Gas m * GasPrice m);
      [injection H as _ <-; reflexivity|].
    destruct (pool <? Gas m);
      [injection H as _ <-; reflexivity | discriminate].
  - rewrite Hb in H.
    destruct (GetBalance (From m) statedb <? Gas m * GasPrice m);
      [injection H as _ <-; reflexivity|].
    destruct (pool <? Gas m);
      [injection H as _ <-; reflexivity | discriminate].
  - rewrite Hb in H.
    destruct (GetBalance (From m) statedb <? Gas m * GasPrice m);
      [left; congruence|].
    destruct (pool <? Gas m); [right; congruence | discriminate].
  - intros Hle Hpool. rewrite Hb.
    destruct (Z.ltb_spec (GetBalance (From m) statedb) (Gas m * GasPrice m));
      [lia|].
    destruct (Z.ltb_spec pool (Gas m)); [lia|].
    eexists. split; [reflexivity|]. cbn.
    repeat split. apply GetBalance_SubBalance.
  - apply (reaches_dispatch_fresh _ _ _ _ _ _ _ _ HG) in H.
    destruct H as (-> & _). reflexivity.
  - apply (reaches_dispatch_fresh _ _ _ _ _ _ _ _ HG) in H.
    destruct H as (-> & _). reflexivity.
Qed.

Ltac u64_range := unfold is_uint64, MaxUint64; cbn; lia.

(** [alice] buys 50000 gas at price 2 out of a pool of 100000. *)
Lemma buyGas_purchase_witness :
  is_uint64 (Gas (transfer 50000 5))
  /\ exists st',
       buyGas (NewStateTransition (evm7 (transfer 50000 5)) genesis
                 (transfer 50000 5) 100000) = (None, st')
       /\ gas st' = 50000 /\ initialGas st' = 50000 /\ gp st' = 50000
       /\ GetBalance alice (state st') = 900000.
Proof.
  split; [u64_range|].
  destruct (buyGas_purchase (evm7 (transfer 50000 5)) genesis
              (transfer 50000 5) 100000 ltac:(u64_range))
    as (_ & _ & _ & Hok & _).
  destruct (Hok ltac:(vm_compute; discriminate) ltac:(vm_compute; discriminate))
    as (st' & Hbuy & Hgas & Hinit & Hgp & _ & Hbal).
  exists st'. repeat split; assumption.
Defined.

(** C3.  For a message that asks for nonce validation: an account nonce
    above the message's fails with [ErrNonceTooLow], one below it fails
    with [ErrNonceTooHigh], in both cases with the transition (world
    state and gas pool included) untouched and before [buyGas] is
    entered; with equal nonces the pre-check is the gas purchase; and the
    pre-check succeeds only with equal nonces. *)
Theorem preCheck_nonce st :
  CheckNonce (msg st) = true ->
  let observed := GetNonce (From (msg st)) (state st) in
  (Nonce (msg st) < observed -> preCheck st = (Some ErrNonceTooLow, st))
  /\ (observed < Nonce (msg st) -> preCheck st = (Some ErrNonceTooHigh, st))
  /\ (observed = Nonce (msg st) -> preCheck st = buyGas st)
  /\ (forall st', preCheck st = (None, st') -> observed = Nonce (msg st)).
Proof.
  intros Hcheck observed. subst observed. unfold preCheck. rewrite Hcheck.
  destruct (Z.ltb_spec (GetNonce (From (msg st)) (state st)) (Nonce (msg st)));
    [|destruct (Z.ltb_spec (Nonce (msg st))
                 (GetNonce (From (msg st)) (state st)))].
  - repeat split; try lia; try reflexivity. discriminate.
  - repeat split; try lia; try reflexivity. discriminate.
  - repeat split; try lia; try reflexivity.
Qed.

(** [alice]'s account is at nonce 5; a message with nonce 4 is too low. *)
Lemma preCheck_nonce_witness :
  CheckNonce (transfer 50000 4) = true
  /\ preCheck (NewStateTransition (evm7 (transfer 50000 4)) genesis
                 (transfer 50000 4) 100000)
     = (Some ErrNonceTooLow,
        NewStateTransition (evm7 (transfer 50000 4)) genesis
          (transfer 50000 4) 100000).
Proof.
  split; [reflexivity|].
  apply (proj1 (preCheck_nonce
                  (NewStateTransition (evm7 (transfer 50000 4)) genesis
                     (transfer 50000 4) 100000) eq_refl)).
  vm_compute. reflexivity.
Defined.

(** ** The state transition *)

Section TransitionFacts.

Context (P : ProtocolParams) {X : Executor}.

Lemma dispatch_execution st :
  dispatch (is_creation (msg st)) st
  = (exec_ret (execution st), exec_err (execution st),
     executed (execution st) st).
Proof.
  destruct st as [pool m g price g0 v d s e].
  unfold dispatch, execution, is_creation, executed, to. cbn.
  destruct (To m); reflexivity.
Qed.

Lemma useGas_ok g st1 st2 :
  useGas g st1 = (None, st2) ->
  st2 = with_gas (u64_sub (gas st1) g) st1 /\ g <= gas st1.
Proof.
  unfold useGas. destruct (Z.ltb_spec (gas st1) g); [discriminate|].
  intros [= <-]. split; [reflexivity | assumption].
Qed.

(** [TransitionDb] from the dispatch on, when the execution does not
    report [ErrInsufficientBalance]: refund, then the fee. *)
Lemma TransitionDb_settles st0 st1 g st2 :
  reaches_dispatch P st0 st1 g st2 ->
  is_ErrInsufficientBalance (exec_err (execution st2)) = false ->
  TransitionDb P st0
  = let r := execution st2 in
    let st := refundGas (executed r st2) in
    let st :=
      with_state
        (AddBalance (ctx_Coinbase (evm_Context (evm st)))
           (gasUsed st * gasPrice st) (state st)) st in
    ({| ret := exec_ret r; usedGas := gasUsed st;
        failed := is_failure (exec_err r); err := None |}, st).
Proof.
  intros (Hpre & Hig & Huse) Hvm.
  apply useGas_ok in Huse as Hst2. destruct Hst2 as [Hst2 _].
  unfold TransitionDb. rewrite Hpre. cbv zeta.
  unfold is_creation, homestead_at in Hig. rewrite Hig, Huse.
  assert (Hcc : match To (msg st1) with None => true | Some _ => false end
                = is_creation (msg st2)).
  { rewrite Hst2. reflexivity. }
  rewrite Hcc, dispatch_execution, Hvm. reflexivity.
Qed.

(** [TransitionDb] when the execution reports [ErrInsufficientBalance]:
    it returns on the spot. *)
Lemma TransitionDb_stops st0 st1 g st2 :
  reaches_dispatch P st0 st1 g st2 ->
  is_ErrInsufficientBalance (exec_err (execution st2)) = true ->
  TransitionDb P st0
  = ({| ret := []; usedGas := 0; failed := false;
        err := exec_err (execution st2) |},
     executed (execution st2) st2).
Proof.
  intros (Hpre & Hig & Huse) Hvm.
  apply useGas_ok in Huse as Hst2. destruct Hst2 as [Hst2 _].
  unfold TransitionDb. rewrite Hpre. cbv zeta.
  unfold is_creation, homestead_at in Hig. rewrite Hig, Huse.
  assert (Hcc : match To (msg st1) with None => true | Some _ => false end
                = is_creation (msg st2)).
  { rewrite Hst2. reflexivity. }
  rewrite Hcc, dispatch_execution, Hvm. reflexivity.
Qed.

(** What the steps before the dispatch change, and what they leave
    alone. *)
Lemma reaches_dispatch_frame st0 st1 g st2 :
  reaches_dispatch P st0 st1 g st2 ->
  st2 = {| gp := gp st0 - Gas (msg st0); msg := msg st0;
           gas := u64_sub (u64_add (gas st0) (Gas (msg st0))) g;
           gasPrice := gasPrice st0; initialGas := Gas (msg st0);
           value := value st0; data := data st0;
           state :=
             SubBalance (From (msg st0)) (Gas (msg st0) * gasPrice st0)
               (state st0);
           evm := evm st0 |}.
Proof.
  intros (Hpre & _ & Huse).
  apply preCheck_ok_buyGas in Hpre. rewrite buyGas_cases in Hpre.
  destruct (GetBalance (From (msg st0)) (state st0)
            <? Gas (msg st0) * gasPrice st0); [discriminate|].
  destruct (gp st0 <? Gas (msg st0)); [discriminate|].
  injection Hpre as <-. apply useGas_ok in Huse as [-> _]. reflexivity.
Qed.

Lemma IntrinsicGas_error data cc hs g e :
  IntrinsicGas P data cc hs = (g, Some e) -> g = 0 /\ e = ErrOutOfGas.
Proof.
  unfold IntrinsicGas.
  repeat match goal with
         | |- context [if ?c then _ else _] => destruct c
         end; intros [= <- <-] || intros [=]; split; reflexivity.
Qed.

(** C1 (as the code has it).  When the execution a message is
    dispatched to reports [ErrInsufficientBalance], [TransitionDb]
    returns at once: the error is that error, the reported gas used is
    zero and the [failed] flag is [false] - the failure is carried by the
    error alone.  Nothing is settled: the world state is exactly the one
    the execution left (no refund to the sender, no credit to the fee
    recipient), the gas counter is the execution's (no refund added),
    and the gas pool is the pool as the purchase left it (no gas handed
    back). *)
Theorem insufficient_balance_hard_stop st0 st1 g st2 :
  reaches_dispatch P st0 st1 g st2 ->
  exec_err (execution st2) = Some ErrInsufficientBalance ->
  fst (TransitionDb P st0)
  = {| ret := []; usedGas := 0; failed := false;
       err := Some ErrInsufficientBalance |}
  /\ state (snd (TransitionDb P st0)) = exec_state (execution st2)
  /\ gas (snd (TransitionDb P st0)) = exec_gas (execution st2)
  /\ gp (snd (TransitionDb P st0)) = gp st0 - Gas (msg st0).
Proof.
  intros Hreach Hvm.
  rewrite (TransitionDb_stops st0 st1 g st2 Hreach)
    by (rewrite Hvm; reflexivity).
  rewrite Hvm. cbn [fst snd]. repeat split.
  rewrite (reaches_dispatch_frame _ _ _ _ Hreach). reflexivity.
Qed.

(** C9.  When the purchase of a fresh transition succeeds and the
    intrinsic-gas step then fails - the computation overflows or the
    working gas counter is below the intrinsic gas - [TransitionDb]
    returns [ErrOutOfGas] (zero gas used, no execution), and the
    transition it leaves is the one the purchase left: the sender's
    balance is down by [gasLimit * gasPrice] and the pool by
    [gasLimit]. *)
Theorem intrinsic_failure_keeps_purchase (e : EVM) statedb m pool st1 :
  is_uint64 (Gas m) ->
  preCheck (NewStateTransition e statedb m pool) = (None, st1) ->
  intrinsic_deduction_fails P st1 = true ->
  TransitionDb P (NewStateTransition e statedb m pool)
  = (rejected ErrOutOfGas, st1)
  /\ state st1 = SubBalance (From m) (Gas m * GasPrice m) statedb
  /\ GetBalance (From m) (state st1)
     = GetBalance (From m) statedb - Gas m * GasPrice m
  /\ gp st1 = pool - Gas m.
Proof.
  intros HG Hpre Hfail.
  assert (Hst1 : st1 = {| gp := pool - Gas m; msg := m; gas := Gas m;
                          gasPrice := GasPrice m; initialGas := Gas m;
                          value := Value m; data := Data m;
                          state :=
                            SubBalance (From m) (Gas m * GasPrice m) statedb;
                          evm := e |}).
  { apply preCheck_ok_buyGas in Hpre as Hbuy. rewrite buyGas_cases in Hbuy.
    cbn [NewStateTransition msg state gp gasPrice gas value data evm] in Hbuy.
    rewrite u64_add_exact in Hbuy by (rewrite Z.add_0_l; exact HG).
    rewrite Z.add_0_l in Hbuy.
    destruct (GetBalance (From m) statedb <? Gas m * GasPrice m);
      [discriminate|].
    destruct (pool <? Gas m); [discriminate|].
    injection Hbuy as <-. reflexivity. }
  split.
  - unfold TransitionDb. rewrite Hpre. cbv zeta.
    unfold intrinsic_deduction_fails, is_creation, homestead_at in Hfail.
    destruct (IntrinsicGas P (data st1)
                match To (msg st1) with None => true | Some _ => false end
                (IsHomestead (evm_ChainConfig (evm st1))
                   (ctx_BlockNumber (evm_Context (evm st1)))))
      as [g [e'|]] eqn:Hig.
    + apply IntrinsicGas_error in Hig as [_ ->]. reflexivity.
    + unfold useGas. rewrite Hfail. reflexivity.
  - rewrite Hst1. cbn [state gp]. repeat split.
    apply GetBalance_SubBalance.
Qed.

Lemma GetNonce_SetNonce addr n s : GetNonce addr (SetNonce addr n s) = n.
Proof.
  unfold GetNonce, SetNonce. cbn [nonces]. rewrite lookup_insert_eq.
  reflexivity.
Qed.

(** The nonces [TransitionDb] leaves are the ones the execution left:
    nothing after the dispatch writes a nonce. *)
Lemma TransitionDb_nonces st0 st1 g st2 :
  reaches_dispatch P st0 st1 g st2 ->
  nonces (state (snd (TransitionDb P st0)))
  = nonces (exec_state (execution st2)).
Proof.
  intros Hreach.
  destruct (is_ErrInsufficientBalance (exec_err (execution st2))) eqn:Hvm.
  - rewrite (TransitionDb_stops _ _ _ _ Hreach Hvm). reflexivity.
  - rewrite (TransitionDb_settles _ _ _ _ Hreach Hvm). reflexivity.
Qed.


End TransitionFacts.

(** ** Settlement *)

Section SettlementFacts.

Context (P : ProtocolParams) {X : Executor}.

Lemma capped_refund half counter :
  (if counter <? half then counter else half) = Z.min half counter.
Proof. destruct (Z.ltb_spec counter half); lia. Qed.

(** [refundGas] in one piece. *)
Lemma refundGas_cases st :
  let refund := Z.min (gasUsed st / 2) (GetRefund (state st)) in
  let remaining := u64_add (gas st) refund in
  refundGas st
  = {| gp := AddGas remaining (gp st); msg := msg st; gas := remaining;
       gasPrice := gasPrice st; initialGas := initialGas st;
       value := value st; data := data st;
       state :=
         AddBalance (From (msg st)) (remaining * gasPrice st) (state st);
       evm := evm st |}.
Proof.
  cbv zeta. unfold refundGas, u64_div. rewrite capped_refund. reflexivity.
Qed.

(** With a gas counter within the limit and a refund counter that is
    not negative, the settlement stays clear of wrap-around. *)
Lemma settlement_exact limit left counter :
  is_uint64 limit -> 0 <= left <= limit -> 0 <= counter ->
  let refund := Z.min (u64_sub limit left / 2) counter in
  0 <= refund
  /\ u64_add left refund = left + refund
  /\ u64_sub limit (u64_add left refund) = limit - (left + refund).
Proof.
  intros Hl Hg Hc refund.
  assert (Hu : u64_sub limit left = limit - left).
  { apply u64_sub_exact. unfold is_uint64 in *. lia. }
  assert (Hhalf : (limit - left) / 2 <= limit - left).
  { apply Z.div_le_upper_bound; lia. }
  assert (H0 : 0 <= (limit - left) / 2) by (apply Z.div_pos; lia).
  assert (Hr : 0 <= refund <= limit - left).
  { unfold refund. rewrite Hu. lia. }
  assert (Hadd : u64_add left refund = left + refund).
  { apply u64_add_exact. unfold is_uint64 in *. lia. }
  repeat split; [lia | exact Hadd |].
  rewrite Hadd. apply u64_sub_exact. unfold is_uint64 in *. lia.
Qed.

(** C4.  For every transition that settles (the execution did not
    report [ErrInsufficientBalance]): the refund is the smaller of half
    the gas used so far (integer division) and the world state's refund
    counter; it is added to the working gas counter; the sender is
    credited [remaining * gasPrice]; [remaining] goes back to the gas
    pool; and then the fee recipient is credited [used * gasPrice],
    where [used = initialGas - remaining] is taken after the refund, and
    [used] is the gas the transition reports.  When the execution hands
    back no more gas than the gas limit and the refund counter is not
    negative, none of the [uint64] operations wraps, so the refunded gas
    is exactly what the fee leaves out. *)
Theorem refund_and_fee_settlement st0 st1 g st2 :
  reaches_dispatch P st0 st1 g st2 ->
  is_ErrInsufficientBalance (exec_err (execution st2)) = false ->
  let st3 := executed (execution st2) st2 in
  let refund := Z.min (gasUsed st3 / 2) (GetRefund (state st3)) in
  let remaining := u64_add (gas st3) refund in
  let used := u64_sub (initialGas st3) remaining in
  let sender := From (msg st0) in
  let recipient := ctx_Coinbase (evm_Context (evm st0)) in
  refund <= gasUsed st3 / 2
  /\ refund <= GetRefund (state st3)
  /\ snd (TransitionDb P st0)
     = {| gp := AddGas remaining (gp st3); msg := msg st0; gas := remaining;
          gasPrice := gasPrice st0; initialGas := initialGas st3;
          value := value st0; data := data st0;
          state :=
            AddBalance recipient (used * gasPrice st0)
              (AddBalance sender (remaining * gasPrice st0) (state st3));
          evm := evm st0 |}
  /\ usedGas (fst (TransitionDb P st0)) = used
  /\ err (fst (TransitionDb P st0)) = None
  /\ (is_uint64 (initialGas st3) -> 0 <= gas st3 <= initialGas st3 ->
      0 <= GetRefund (state st3) ->
      0 <= refund
      /\ remaining = gas st3 + refund
      /\ used = initialGas st3 - remaining
      /\ used + refund = initialGas st3 - gas st3).
Proof.
  intros Hreach Hvm st3 refund remaining used sender recipient.
  rewrite (TransitionDb_settles P _ _ _ _ Hreach Hvm). cbv zeta.
  fold st3. rewrite (refundGas_cases st3). cbv zeta.
  fold refund. fold remaining.
  pose proof (reaches_dispatch_frame P _ _ _ _ Hreach) as Hst2.
  assert (Hmsg : msg st3 = msg st0) by (subst st3; rewrite Hst2; reflexivity).
  assert (Hevm : evm st3 = evm st0) by (subst st3; rewrite Hst2; reflexivity).
  assert (Hprice : gasPrice st3 = gasPrice st0)
    by (subst st3; rewrite Hst2; reflexivity).
  assert (Hval : value st3 = value st0)
    by (subst st3; rewrite Hst2; reflexivity).
  assert (Hdata : data st3 = data st0)
    by (subst st3; rewrite Hst2; reflexivity).
  split; [apply Z.le_min_l|]. split; [apply Z.le_min_r|].
  unfold with_state, gasUsed.
  cbn [fst snd usedGas err gp msg gas gasPrice initialGas value data state evm].
  fold used. rewrite Hmsg, Hevm, Hprice, Hval, Hdata.
  split; [reflexivity|]. split; [reflexivity|]. split; [reflexivity|].
  intros Hlimit Hleft Hcounter.
  destruct (settlement_exact _ _ _ Hlimit Hleft Hcounter)
    as (H0 & Hadd & Hsub).
  change (0 <= refund) in H0.
  change (remaining = gas st3 + refund) in Hadd.
  change (used = initialGas st3 - (gas st3 + refund)) in Hsub.
  repeat split; lia.
Qed.

End SettlementFacts.

(** ** Transaction application and the block loop *)

Section ProcessorFacts.

Context (P : ProtocolParams) {X : Executor} {C : Collaborators}.

(** [ApplyTransaction] when the signer resolves, by the outcome of the
    transition. *)
Lemma ApplyTransaction_cases config bc author pool statedb header tx total cfg
    r st :
  tx_signer_err tx = None ->
  TransitionDb P
    (NewStateTransition
       (NewEVM (NewEVMContext (tx_message tx) header bc author) config cfg)
       statedb (tx_message tx) pool) = (r, st) ->
  ApplyTransaction P config bc author pool statedb header tx total cfg
  = match err r with
    | Some e =>
        (None, 0, Some e,
         {| sh_gp := gp st; sh_statedb := state st; sh_usedGas := total |})
    | None =>
        let after := post_root config header (state st) in
        let receipt :=
          {| PostState := fst after;
             Status :=
               if failed r then ReceiptStatusFailed
               else ReceiptStatusSuccessful;
             CumulativeGasUsed := u64_add total (usedGas r);
             Bloom := 0; Logs := GetLogs (tx_Hash tx) (snd after);
             TxHash := tx_Hash tx;
             ContractAddress :=
               match To (tx_message tx) with
               | None => CreateAddress (From (tx_message tx)) (tx_Nonce tx)
               | Some _ => zeroAddress
               end;
             GasUsed := usedGas r |} in
        (Some
           {| PostState := PostState receipt; Status := Status receipt;
              CumulativeGasUsed := CumulativeGasUsed receipt;
              Bloom := CreateBloom [receipt]; Logs := Logs receipt;
              TxHash := TxHash receipt;
              ContractAddress := ContractAddress receipt;
              GasUsed := GasUsed receipt |},
         usedGas r, None,
         {| sh_gp := gp st; sh_statedb := snd after;
            sh_usedGas := u64_add total (usedGas r) |})
    end.
Proof.
  intros Hsig Htr.
  unfold ApplyTransaction, AsMessage, ApplyMessage, leftovers.
  rewrite Hsig, Htr. cbn [fst snd].
  destruct r as [rret rused rfailed [e|]]; cbn [err usedGas failed].
  - reflexivity.
  - unfold post_root.
    destruct (IsByzantium config (Number header)).
    + reflexivity.
    + destruct (IntermediateRoot (IsEIP158 config (Number header)) (state st));
        reflexivity.
Qed.

(** A nil error comes with a receipt. *)
Lemma ApplyTransaction_receipt config bc author pool statedb header tx total
    cfg g sh :
  ApplyTransaction P config bc author pool statedb header tx total cfg
  <> (None, g, None, sh).
Proof.
  destruct (tx_signer_err tx) as [e|] eqn:Hsig.
  - unfold ApplyTransaction, AsMessage. rewrite Hsig. discriminate.
  - destruct (TransitionDb P
                (NewStateTransition
                   (NewEVM (NewEVMContext (tx_message tx) header bc author)
                      config cfg) statedb (tx_message tx) pool))
      as [r st] eqn:Htr.
    rewrite (ApplyTransaction_cases _ _ _ _ _ _ _ _ _ _ _ Hsig Htr).
    destruct (err r); discriminate.
Qed.

(** C8.  Whenever a transaction yields a receipt: if its message has no
    recipient, the receipt's [ContractAddress] is [CreateAddress] of the
    sender and the transaction's own nonce; if it has one, the field
    keeps its zero value. *)
Theorem receipt_contract_address config bc author pool statedb header tx total
    cfg receipt g e sh :
  ApplyTransaction P config bc author pool statedb header tx total cfg
  = (Some receipt, g, e, sh) ->
  ContractAddress receipt
  = match To (tx_message tx) with
    | None => CreateAddress (From (tx_message tx)) (tx_Nonce tx)
    | Some _ => zeroAddress
    end.
Proof.
  intros Happ.
  destruct (tx_signer_err tx) as [e'|] eqn:Hsig.
  - unfold ApplyTransaction, AsMessage in Happ. rewrite Hsig in Happ.
    discriminate.
  - destruct (TransitionDb P
                (NewStateTransition
                   (NewEVM (NewEVMContext (tx_message tx) header bc author)
                      config cfg) statedb (tx_message tx) pool))
      as [r st] eqn:Htr.
    rewrite (ApplyTransaction_cases _ _ _ _ _ _ _ _ _ _ _ Hsig Htr) in Happ.
    destruct (err r); [discriminate|].
    cbv zeta in Happ. injection Happ as <- _ _ _. reflexivity.
Qed.

(** The loop over a run of successful transactions followed by more. *)
Lemma Process_loop_app config bc block cfg pre : forall rest i rs ls sh rs' ls' sh',
  apply_prefix P config bc block cfg pre i rs ls sh = Some (rs', ls', sh') ->
  Process_loop P config bc block cfg (pre ++ rest) i rs ls sh
  = Process_loop P config bc block cfg rest (i + Z.of_nat (length pre))
      rs' ls' sh'.
Proof.
  induction pre as [|tx pre IH]; intros rest i rs ls sh rs' ls' sh' Hpre.
  - cbn in Hpre. injection Hpre as <- <- <-.
    cbn [app length Z.of_nat]. rewrite Z.add_0_r. reflexivity.
  - cbn [apply_prefix] in Hpre. unfold apply_at in Hpre.
    cbn [app Process_loop].
    destruct (ApplyTransaction P config bc None (sh_gp sh)
                (Prepare (tx_Hash tx) (block_Hash block) i (sh_statedb sh))
                (block_Header block) tx (sh_usedGas sh) cfg)
      as [[[[receipt|] g] [e|]] sh1]; try discriminate.
    rewrite (IH _ _ _ _ _ _ _ _ Hpre). f_equal.
    cbn [length]. lia.
Qed.

(** C6.  [Process] applies the block's transactions in list order, each
    on the pool, world state and gas total the previous one left.  When
    the transactions before [tx] all yield receipts and [tx] is the
    first to return an error, [Process] returns that error with no
    receipts, no logs and a zero gas total, and the world state is the
    one the failed application left: nothing after [tx] is applied (and
    the consensus engine's [Finalize] is not run). *)
Theorem Process_stops_at_first_error config bc block statedb cfg pre tx post
    rs ls sh e :
  Transactions block = pre ++ tx :: post ->
  apply_prefix P config bc block cfg pre 0 [] []
    (block_start config block statedb) = Some (rs, ls, sh) ->
  snd (fst (apply_at P config bc block cfg tx (Z.of_nat (length pre)) sh))
  = Some e ->
  Process P config bc block statedb cfg
  = ({| res_receipts := []; res_logs := []; res_usedGas := 0;
        res_err := Some e |},
     sh_statedb
       (snd (apply_at P config bc block cfg tx (Z.of_nat (length pre)) sh))).
Proof.
  intros Htxs Hpre Herr.
  unfold Process. rewrite Htxs.
  fold (block_start config block statedb).
  rewrite (Process_loop_app _ _ _ _ _ _ _ _ _ _ _ _ _ Hpre).
  rewrite Z.add_0_l. cbn [Process_loop].
  unfold apply_at in Herr |- *.
  destruct (ApplyTransaction P config bc None (sh_gp sh)
              (Prepare (tx_Hash tx) (block_Hash block)
                 (Z.of_nat (length pre)) (sh_statedb sh))
              (block_Header block) tx (sh_usedGas sh) cfg)
    as [[[receipt g] e'] sh1].
  cbn [fst snd] in Herr |- *. subst e'. destruct receipt; reflexivity.
Qed.

End ProcessorFacts.

Section RevertFacts.

Context (P : ProtocolParams) {X : Executor} {C : Collaborators}.

Lemma IntrinsicGas_range data cc hs g :
  params_ok P -> IntrinsicGas P data cc hs = (g, None) -> is_uint64 g.
Proof.
  intros HP. pose proof (base_gas_range P cc hs HP) as Hb.
  unfold base_gas in Hb. unfold IntrinsicGas.
  repeat match goal with
         | |- context [if ?c <? ?d then _ else _] => destruct (c <? d)
         end; intros [= <-]; try assumption; apply wrap64_range.
Qed.

Lemma not_insufficient_balance e :
  e <> ErrInsufficientBalance ->
  is_ErrInsufficientBalance (Some e) = false.
Proof. destruct e; intros He; try reflexivity. contradiction. Qed.

(** A fresh transition that settles, when the execution hands back no
    more gas than it was given and the refund counter is not negative:
    everything in exact integers. *)
Lemma TransitionDb_settled_fresh (e : EVM) statedb m pool st1 g st2 :
  params_ok P -> is_uint64 (Gas m) ->
  reaches_dispatch P (NewStateTransition e statedb m pool) st1 g st2 ->
  is_ErrInsufficientBalance (exec_err (execution st2)) = false ->
  0 <= exec_gas (execution st2) <= gas st2 ->
  0 <= GetRefund (exec_state (execution st2)) ->
  let r := execution st2 in
  let spent := g + (gas st2 - exec_gas r) in
  let refund := Z.min (spent / 2) (GetRefund (exec_state r)) in
  TransitionDb P (NewStateTransition e statedb m pool)
  = ({| ret := exec_ret r; usedGas := spent - refund;
        failed := is_failure (exec_err r); err := None |},
     {| gp := AddGas (exec_gas r + refund) (pool - Gas m); msg := m;
        gas := exec_gas r + refund; gasPrice := GasPrice m;
        initialGas := Gas m; value := Value m; data := Data m;
        state :=
          AddBalance (ctx_Coinbase (evm_Context e))
            ((spent - refund) * GasPrice m)
            (AddBalance (From m) ((exec_gas r + refund) * GasPrice m)
               (exec_state r));
        evm := e |})
  /\ 0 <= refund <= spent / 2.
Proof.
  intros HP HG Hreach Hvm Hleft Hcounter r spent refund.
  pose proof Hreach as (_ & Hig & _).
  apply (IntrinsicGas_range _ _ _ _ HP) in Hig.
  destruct (reaches_dispatch_fresh P _ _ _ _ _ _ _ HG Hreach)
    as (Hst2 & _ & Hg & _).
  assert (Hgas2 : gas st2 = Gas m - g).
  { rewrite Hst2. cbn [gas]. apply u64_sub_exact.
    unfold is_uint64 in *. lia. }
  assert (Hspent : spent = Gas m - exec_gas r) by (unfold spent; lia).
  assert (Hleft' : 0 <= exec_gas r <= Gas m)
    by (unfold is_uint64 in *; fold r in Hleft; lia).
  destruct (settlement_exact (Gas m) (exec_gas r) (GetRefund (exec_state r))
              HG Hleft' Hcounter) as (H0 & Hadd & Hsub).
  assert (Hu : u64_sub (Gas m) (exec_gas r) = spent).
  { rewrite Hspent. apply u64_sub_exact. unfold is_uint64 in *. lia. }
  rewrite Hu in H0, Hadd, Hsub.
  change (0 <= refund) in H0.
  change (u64_add (exec_gas r) refund = exec_gas r + refund) in Hadd.
  change (u64_sub (Gas m) (u64_add (exec_gas r) refund)
          = Gas m - (exec_gas r + refund)) in Hsub.
  split; [|split; [exact H0 | apply Z.le_min_l]].
  rewrite (TransitionDb_settles P _ _ _ _ Hreach Hvm). cbv zeta.
  fold r. rewrite (refundGas_cases (executed r st2)). cbv zeta.
  rewrite Hst2. unfold executed, with_state, with_gas, gasUsed.
  cbn [gp msg gas gasPrice initialGas value data state evm].
  rewrite Hu. fold refund. rewrite Hsub, Hadd.
  replace (Gas m - (exec_gas r + refund)) with (spent - refund) by lia.
  reflexivity.
Qed.

(** One successful application moves the loop on to the rest, with the
    receipt and its logs appended. *)
Lemma Process_loop_step config bc block cfg tx rest i rs ls sh receipt g sh' :
  apply_at P config bc block cfg tx i sh = (Some receipt, g, None, sh') ->
  Process_loop P config bc block cfg (tx :: rest) i rs ls sh
  = Process_loop P config bc block cfg rest (i + 1) (rs ++ [receipt])
      (ls ++ Logs receipt) sh'.
Proof.
  intros Happ. unfold apply_at in Happ. cbn [Process_loop].
  rewrite Happ. reflexivity.
Qed.

(** A run of successful applications ends the loop with a nil error. *)
Lemma Process_loop_completes config bc block cfg txs i rs ls sh rs' ls' sh' :
  apply_prefix P config bc block cfg txs i rs ls sh = Some (rs', ls', sh') ->
  Process_loop P config bc block cfg txs i rs ls sh
  = ({| res_receipts := rs'; res_logs := ls';
        res_usedGas := sh_usedGas sh'; res_err := None |},
     engine_Finalize (block_Header block) (sh_statedb sh')
       (Transactions block) (Uncles block) rs').
Proof.
  intros Hrun.
  pose proof (Process_loop_app P config bc block cfg txs [] i rs ls sh
                rs' ls' sh' Hrun) as Happ.
  rewrite app_nil_r in Happ. rewrite Happ. reflexivity.
Qed.

(** A run of successful applications only ever appends receipts. *)
Lemma apply_prefix_extends config bc block cfg txs :
  forall i rs ls sh rs' ls' sh',
  apply_prefix P config bc block cfg txs i rs ls sh = Some (rs', ls', sh') ->
  exists more, rs' = rs ++ more.
Proof.
  induction txs as [|tx rest IH]; intros i rs ls sh rs' ls' sh' Hrun.
  - cbn in Hrun. injection Hrun as <- _ _. exists []. symmetry.
    apply app_nil_r.
  - cbn [apply_prefix] in Hrun.
    destruct (apply_at P config bc block cfg tx i sh)
      as [[[[receipt|] g] [e|]] sh1]; try discriminate.
    destruct (IH _ _ _ _ _ _ _ Hrun) as [more ->].
    exists (receipt :: more). rewrite <- app_assoc. reflexivity.
Qed.

(** C7 (as the code has it).  In the block loop, a transaction whose
    execution reports an error other than [ErrInsufficientBalance] is
    applied with a nil error and a receipt of failed status.  The gas
    spent is the intrinsic gas plus what the execution used; the
    receipt's gas is that amount less the refund settled as for any
    other transaction - the smaller of half the gas spent and the
    refund counter the execution left, so nothing when that counter is
    zero; the fee recipient is credited the receipt's gas times the gas
    price.  The block is not rejected on account of this transaction:
    when it is the last one the loop returns a nil error with this
    receipt at the end of the receipts; when the transactions after it
    are applied too the loop returns a nil error with this receipt
    among the receipts; and in every case the loop's result is that of
    the loop over the remaining transactions, started from what this
    one left and with this receipt appended. *)
Theorem execution_error_is_recorded config bc block cfg tx rest i rs ls sh
    st1 g st2 e :
  let m := tx_message tx in
  let header := block_Header block in
  let statedb := Prepare (tx_Hash tx) (block_Hash block) i (sh_statedb sh) in
  let st0 :=
    NewStateTransition (NewEVM (NewEVMContext m header bc None) config cfg)
      statedb m (sh_gp sh) in
  params_ok P -> tx_signer_err tx = None -> is_uint64 (Gas m) ->
  reaches_dispatch P st0 st1 g st2 ->
  exec_err (execution st2) = Some e -> e <> ErrInsufficientBalance ->
  0 <= exec_gas (execution st2) <= gas st2 ->
  0 <= GetRefund (exec_state (execution st2)) ->
  let r := execution st2 in
  let spent := g + (gas st2 - exec_gas r) in
  let refund := Z.min (spent / 2) (GetRefund (exec_state r)) in
  exists receipt sh',
    apply_at P config bc block cfg tx i sh
    = (Some receipt, GasUsed receipt, None, sh')
    /\ Status receipt = ReceiptStatusFailed
    /\ GasUsed receipt = spent - refund
    /\ spent - spent / 2 <= GasUsed receipt <= spent
    /\ (GetRefund (exec_state r) = 0 -> GasUsed receipt = spent)
    /\ sh_statedb sh'
       = snd (post_root config header
                (AddBalance (Coinbase header) (GasUsed receipt * GasPrice m)
                   (AddBalance (From m) ((exec_gas r + refund) * GasPrice m)
                      (exec_state r))))
    /\ sh_usedGas sh' = u64_add (sh_usedGas sh) (GasUsed receipt)
    /\ Process_loop P config bc block cfg [tx] i rs ls sh
       = ({| res_receipts := rs ++ [receipt];
             res_logs := ls ++ Logs receipt;
             res_usedGas := sh_usedGas sh'; res_err := None |},
          engine_Finalize header (sh_statedb sh') (Transactions block)
            (Uncles block) (rs ++ [receipt]))
    /\ (forall rs' ls' sh'',
          apply_prefix P config bc block cfg rest (i + 1) (rs ++ [receipt])
            (ls ++ Logs receipt) sh' = Some (rs', ls', sh'') ->
          Process_loop P config bc block cfg (tx :: rest) i rs ls sh
          = ({| res_receipts := rs'; res_logs := ls';
                res_usedGas := sh_usedGas sh''; res_err := None |},
             engine_Finalize header (sh_statedb sh'') (Transactions block)
               (Uncles block) rs')
          /\ exists more, rs' = rs ++ receipt :: more)
    /\ Process_loop P config bc block cfg (tx :: rest) i rs ls sh
       = Process_loop P config bc block cfg rest (i + 1) (rs ++ [receipt])
           (ls ++ Logs receipt) sh'.
Proof.
  intros m header statedb st0 HP Hsig HG Hreach Herr Hne Hleft Hcounter
    r spent refund.
  assert (Hvm : is_ErrInsufficientBalance (exec_err (execution st2)) = false).
  { rewrite Herr. apply not_insufficient_balance. exact Hne. }
  destruct (TransitionDb_settled_fresh _ _ _ _ _ _ _ HP HG Hreach Hvm Hleft
              Hcounter) as (Htr & Hr0 & Hr1).
  fold r in Htr, Hr0, Hr1. fold spent in Htr, Hr0, Hr1.
  fold refund in Htr, Hr0, Hr1.
  pose proof (ApplyTransaction_cases P config bc None (sh_gp sh) statedb
                header tx (sh_usedGas sh) cfg _ _ Hsig Htr) as Happ.
  cbn [err usedGas failed gp state] in Happ. cbv zeta in Happ.
  fold r in Herr. rewrite Herr in Happ.
  cbn [is_failure PostState Status CumulativeGasUsed Bloom Logs TxHash
       ContractAddress GasUsed NewEVM evm_Context NewEVMContext ctx_Coinbase]
    in Happ.
  pose proof (Happ : apply_at P config bc block cfg tx i sh = _) as Happ'.
  pose proof (fun rest' =>
                Process_loop_step config bc block cfg tx rest' i rs ls sh
                  _ _ _ Happ') as Hstep.
  eexists. eexists. split.
  { unfold apply_at. exact Happ. }
  cbn [Status GasUsed sh_statedb sh_usedGas].
  split; [reflexivity|]. split; [reflexivity|].
  split; [lia|].
  split.
  { intros Hzero. unfold refund. rewrite Hzero.
    assert (0 <= spent / 2) by lia. lia. }
  split; [reflexivity|]. split; [reflexivity|].
  split.
  { rewrite Hstep. reflexivity. }
  split; [|apply Hstep].
  intros rs' ls' sh'' Hrest. rewrite Hstep. split.
  - apply Process_loop_completes. exact Hrest.
  - destruct (apply_prefix_extends _ _ _ _ _ _ _ _ _ _ _ _ Hrest)
      as [more ->].
    exists more. rewrite <- app_assoc. reflexivity.
Qed.

End RevertFacts.

(** ** The properties on sample inputs *)

Ltac by_computation := vm_compute; reflexivity.

Lemma call_reaches_dispatch :
  reaches_dispatch frontier_params call0 call1 21000 call2.
Proof. repeat split; by_computation. Qed.

(** C1 as stated fails on the [failed] flag: with an execution that
    reports [ErrInsufficientBalance], the transition returns the error
    and zero gas used, but its [failed] flag is [false]. *)
Lemma insufficient_balance_status_counterexample :
  reaches_dispatch frontier_params call0 call1 21000 call2
  /\ exec_err
       (execution (X := scripted 0 (Some ErrInsufficientBalance) 0) call2)
     = Some ErrInsufficientBalance
  /\ ~ (err (fst (TransitionDb (X := scripted 0 (Some ErrInsufficientBalance) 0)
                    frontier_params call0)) <> None
        /\ usedGas (fst (TransitionDb
                           (X := scripted 0 (Some ErrInsufficientBalance) 0)
                           frontier_params call0)) = 0
        /\ failed (fst (TransitionDb
                          (X := scripted 0 (Some ErrInsufficientBalance) 0)
                          frontier_params call0)) = true).
Proof.
  split; [exact call_reaches_dispatch|].
  split; [reflexivity|].
  intros (_ & _ & Hfailed). vm_compute in Hfailed. discriminate Hfailed.
Qed.

Lemma insufficient_balance_hard_stop_witness :
  reaches_dispatch frontier_params call0 call1 21000 call2
  /\ exec_err
       (execution (X := scripted 0 (Some ErrInsufficientBalance) 0) call2)
     = Some ErrInsufficientBalance
  /\ fst (TransitionDb (X := scripted 0 (Some ErrInsufficientBalance) 0)
            frontier_params call0)
     = {| ret := []; usedGas := 0; failed := false;
          err := Some ErrInsufficientBalance |}
  /\ gp (snd (TransitionDb (X := scripted 0 (Some ErrInsufficientBalance) 0)
                frontier_params call0)) = 50000.
Proof.
  assert (Hreach : reaches_dispatch frontier_params call0 call1 21000 call2)
    by (repeat split; by_computation).
  split; [exact Hreach|]. split; [reflexivity|].
  destruct (insufficient_balance_hard_stop frontier_params
              (X := scripted 0 (Some ErrInsufficientBalance) 0)
              call0 call1 21000 call2 Hreach eq_refl)
    as (Hres & _ & _ & Hgp).
  split; [exact Hres | exact Hgp].
Defined.

(** A call whose execution uses 9000 gas and leaves a refund counter of
    3000: 30000 gas used so far, 3000 refunded, 27000 reported, and the
    miner is credited 27000 at price 2. *)
Lemma refund_and_fee_settlement_witness :
  reaches_dispatch frontier_params call0 call1 21000 call2
  /\ is_ErrInsufficientBalance
       (exec_err (execution (X := scripted 9000 None 3000) call2)) = false
  /\ usedGas (fst (TransitionDb (X := scripted 9000 None 3000)
                     frontier_params call0)) = 27000
  /\ GetBalance miner
       (state (snd (TransitionDb (X := scripted 9000 None 3000)
                      frontier_params call0))) = 54000
  /\ gp (snd (TransitionDb (X := scripted 9000 None 3000)
                frontier_params call0)) = 73000.
Proof.
  assert (Hreach : reaches_dispatch frontier_params call0 call1 21000 call2)
    by (repeat split; by_computation).
  split; [exact Hreach|]. split; [reflexivity|].
  destruct (refund_and_fee_settlement frontier_params
              (X := scripted 9000 None 3000)
              call0 call1 21000 call2 Hreach eq_refl)
    as (_ & _ & Hst & Hused & _).
  split; [exact (eq_trans Hused ltac:(by_computation))|].
  rewrite Hst. split; by_computation.
Defined.

(** A call with 20000 gas: the purchase goes through, the intrinsic gas
    of 21000 cannot be deducted, and the 40000 paid stay paid. *)
Lemma intrinsic_failure_keeps_purchase_witness :
  is_uint64 (Gas (transfer 20000 5))
  /\ preCheck (NewStateTransition (evm7 (transfer 20000 5)) genesis
                 (transfer 20000 5) 100000) = (None, short1)
  /\ intrinsic_deduction_fails frontier_params short1 = true
  /\ TransitionDb (X := scripted 0 None 0) frontier_params
       (NewStateTransition (evm7 (transfer 20000 5)) genesis
          (transfer 20000 5) 100000)
     = (rejected ErrOutOfGas, short1)
  /\ GetBalance alice (state short1) = 960000
  /\ gp short1 = 80000.
Proof.
  assert (Hpre : preCheck (NewStateTransition (evm7 (transfer 20000 5))
                             genesis (transfer 20000 5) 100000)
                 = (None, short1)) by by_computation.
  split; [u64_range|]. split; [exact Hpre|]. split; [by_computation|].
  destruct (intrinsic_failure_keeps_purchase frontier_params
              (X := scripted 0 None 0) (evm7 (transfer 20000 5)) genesis
              (transfer 20000 5) 100000 short1 ltac:(u64_range) Hpre
              ltac:(by_computation))
    as (Htr & _ & Hbal & Hgp).
  split; [exact Htr|].
  split; [exact (eq_trans Hbal ltac:(by_computation))|].
  exact (eq_trans Hgp ltac:(by_computation)).
Defined.


(** [alice]'s creation yields a receipt whose contract address is
    derived from [alice] and the transaction's nonce 5. *)
Lemma receipt_contract_address_witness :
  deploy_applied
  = (Some (receipt_of deploy_applied), snd (fst (fst deploy_applied)),
     snd (fst deploy_applied), snd deploy_applied)
  /\ ContractAddress (receipt_of deploy_applied)
     = CreateAddress (Collaborators := plain_collaborators) alice 5.
Proof.
  assert (Happ : deploy_applied
                 = (Some (receipt_of deploy_applied),
                    snd (fst (fst deploy_applied)),
                    snd (fst deploy_applied), snd deploy_applied))
    by by_computation.
  split; [exact Happ|].
  exact (receipt_contract_address frontier_params
           (X := scripted 1000 None 0) (C := plain_collaborators)
           always_on tt None 100000 genesis header7 deploy_tx 0 tt
           _ _ _ _ Happ).
Defined.

(** In the crowded block the first transfer is applied, the second
    fails with [ErrGasLimitReached], and [Process] returns that error
    with nothing else; the third transfer is never looked at. *)
Lemma Process_stops_at_first_error_witness :
  Transactions crowded
  = [signed 21%N (transfer 21000 5)]
    ++ signed 22%N (transfer 21000 6) :: [signed 23%N (transfer 21000 7)]
  /\ crowded_prefix = Some crowded_after_first
  /\ snd (fst (apply_at (X := scripted 0 None 0) (C := plain_collaborators)
                 frontier_params always_on tt crowded tt
                 (signed 22%N (transfer 21000 6)) 1
                 (snd crowded_after_first)))
     = Some ErrGasLimitReached
  /\ fst (Process (X := scripted 0 None 0) (C := plain_collaborators)
            frontier_params always_on tt crowded genesis tt)
     = {| res_receipts := []; res_logs := []; res_usedGas := 0;
          res_err := Some ErrGasLimitReached |}.
Proof.
  assert (Hpre : apply_prefix (X := scripted 0 None 0)
                   (C := plain_collaborators) frontier_params always_on tt
                   crowded tt [signed 21%N (transfer 21000 5)] 0 [] []
                   (block_start (C := plain_collaborators) always_on crowded
                      genesis)
                 = Some (fst (fst crowded_after_first),
                         snd (fst crowded_after_first),
                         snd crowded_after_first))
    by by_computation.
  split; [reflexivity|]. split; [by_computation|]. split; [by_computation|].
  rewrite (Process_stops_at_first_error frontier_params
             (X := scripted 0 None 0) (C := plain_collaborators)
             always_on tt crowded genesis tt
             [signed 21%N (transfer 21000 5)]
             (signed 22%N (transfer 21000 6))
             [signed 23%N (transfer 21000 7)]
             _ _ _ ErrGasLimitReached eq_refl Hpre ltac:(by_computation)).
  reflexivity.
Defined.

(** [alice]'s creation as the only transaction of a block, with an
    execution that uses 1000 gas and fails: a receipt of failed status
    with 54072 gas, 108144 for the miner, and [Process] returns a nil
    error with that receipt. *)
Lemma execution_error_is_recorded_witness :
  params_ok frontier_params
  /\ tx_signer_err deploy_tx = None
  /\ is_uint64 (Gas (tx_message deploy_tx))
  /\ reaches_dispatch frontier_params loop_deploy0 loop_deploy1 53072
       loop_deploy2
  /\ exec_err (execution (X := scripted 1000 (Some (ErrExecution 1)) 0)
                 loop_deploy2) = Some (ErrExecution 1)
  /\ ErrExecution 1 <> ErrInsufficientBalance
  /\ exists receipt sh',
       apply_at (X := scripted 1000 (Some (ErrExecution 1)) 0)
         (C := plain_collaborators) frontier_params always_on tt
         (block7 [deploy_tx]) tt deploy_tx 0 first_in_block
       = (Some receipt, GasUsed receipt, None, sh')
       /\ Status receipt = ReceiptStatusFailed
       /\ GasUsed receipt = 54072
       /\ GetBalance miner (sh_statedb sh') = 108144
       /\ fst (Process (X := scripted 1000 (Some (ErrExecution 1)) 0)
                 (C := plain_collaborators) frontier_params always_on tt
                 (block7 [deploy_tx]) genesis tt)
          = {| res_receipts := [receipt]; res_logs := Logs receipt;
               res_usedGas := sh_usedGas sh'; res_err := None |}.
Proof.
  assert (Hreach : reaches_dispatch frontier_params loop_deploy0
                     loop_deploy1 53072 loop_deploy2)
    by (repeat split; by_computation).
  assert (HP : params_ok frontier_params)
    by (constructor; unfold is_uint64, MaxUint64; cbn; lia).
  assert (Hne : ErrExecution 1 <> ErrInsufficientBalance) by discriminate.
  split; [exact HP|]. split; [reflexivity|]. split; [u64_range|].
  split; [exact Hreach|]. split; [reflexivity|]. split; [exact Hne|].
  destruct (execution_error_is_recorded frontier_params
              (X := scripted 1000 (Some (ErrExecution 1)) 0)
              (C := plain_collaborators) always_on tt (block7 [deploy_tx]) tt
              deploy_tx [] 0 [] [] first_in_block loop_deploy1 53072
              loop_deploy2 (ErrExecution 1) HP eq_refl ltac:(u64_range)
              Hreach eq_refl Hne ltac:(vm_compute; split; discriminate)
              ltac:(vm_compute; discriminate))
    as (receipt & sh' & Happ & Hstatus & Hgas & _ & _ & Hstate & _ & Hlast
        & _).
  exists receipt, sh'.
  split; [exact Happ|]. split; [exact Hstatus|].
  split; [exact (eq_trans Hgas ltac:(by_computation))|].
  split; [rewrite Hstate, Hgas; by_computation|].
  assert (Hstart : Process (X := scripted 1000 (Some (ErrExecution 1)) 0)
                     (C := plain_collaborators) frontier_params always_on tt
                     (block7 [deploy_tx]) genesis tt
                   = Process_loop
                       (X := scripted 1000 (Some (ErrExecution 1)) 0)
                       (C := plain_collaborators) frontier_params always_on
                       tt (block7 [deploy_tx]) tt [deploy_tx] 0 [] []
                       first_in_block) by reflexivity.
  rewrite Hstart, Hlast. reflexivity.
Defined.

(** C7 as stated fails on the gas: when the failed execution leaves a
    refund counter of 3000, the receipt records 51072 gas, not the
    intrinsic 53072 plus the 1000 the execution used. *)
Lemma execution_error_gas_counterexample :
  tx_signer_err deploy_tx = None
  /\ reaches_dispatch frontier_params loop_deploy0 loop_deploy1 53072
       loop_deploy2
  /\ exec_err (execution (X := scripted 1000 (Some (ErrExecution 1)) 3000)
                 loop_deploy2) = Some (ErrExecution 1)
  /\ gas loop_deploy2
     - exec_gas (execution (X := scripted 1000 (Some (ErrExecution 1)) 3000)
                   loop_deploy2) = 1000
  /\ fst (apply_at (X := scripted 1000 (Some (ErrExecution 1)) 3000)
            (C := plain_collaborators) frontier_params always_on tt
            (block7 [deploy_tx]) tt deploy_tx 0 first_in_block)
     = (Some
          (receipt_of
             (apply_at (X := scripted 1000 (Some (ErrExecution 1)) 3000)
                (C := plain_collaborators) frontier_params always_on tt
                (block7 [deploy_tx]) tt deploy_tx 0 first_in_block)),
        51072, None)
  /\ ~ (GasUsed
          (receipt_of
             (apply_at (X := scripted 1000 (Some (ErrExecution 1)) 3000)
                (C := plain_collaborators) frontier_params always_on tt
                (block7 [deploy_tx]) tt deploy_tx 0 first_in_block))
        = 53072 + 1000).
Proof.
  split; [reflexivity|].
  split; [repeat split; by_computation|].
  split; [reflexivity|]. split; [by_computation|].
  split; [by_computation|].
  intros Hgas. vm_compute in Hgas. discriminate Hgas.
Qed.

(** ** End-to-end checks of the embedding *)

Example IntrinsicGas_empty_call :
  IntrinsicGas frontier_params [] false true = (21000, None).
Proof. reflexivity. Qed.

Example IntrinsicGas_creation_before_homestead :
  IntrinsicGas frontier_params [] true false = (21000, None).
Proof. reflexivity. Qed.

Example IntrinsicGas_mixed_payload :
  IntrinsicGas frontier_params [x00; x01; x00; xff] true true
  = (53000 + 2 * 68 + 2 * 4, None).
Proof. reflexivity. Qed.

(** One plain transfer filling the block: one receipt, successful, 21000
    gas, and an empty pool. *)
Example single_transfer_fills_the_block :
  option_map
    (fun out : list Receipt * list Log * Shared =>
       (map Status (fst (fst out)), map GasUsed (fst (fst out)),
        sh_gp (snd out), sh_usedGas (snd out)))
    (apply_prefix (X := scripted 0 None 0) (C := plain_collaborators)
       frontier_params always_on tt single tt (Transactions single) 0 [] []
       (block_start (C := plain_collaborators) always_on single genesis))
  = Some ([ReceiptStatusSuccessful], [21000], 0, 21000).
Proof. by_computation. Qed.

Example single_transfer_processed :
  let out :=
    Process (X := scripted 0 None 0) (C := plain_collaborators)
      frontier_params always_on tt single genesis tt in
  res_err (fst out) = None
  /\ res_usedGas (fst out) = 21000
  /\ length (res_receipts (fst out)) = 1%nat
  /\ GetBalance alice (snd out) = 979000
  /\ GetBalance miner (snd out) = 21000
  /\ GetNonce alice (snd out) = 6.
Proof. repeat split; by_computation. Qed.

(** * Further properties of the two files *)

(** ** IntrinsicGas: what the price depends on *)

Lemma wrap64_idem_add a b : wrap64 (wrap64 a + b) = wrap64 (a + b).
Proof. unfold wrap64. apply Zplus_mod_idemp_l. Qed.

(** The machine counter of non-zero bytes is the count reduced to 64
    bits, whatever the length of the payload. *)
Lemma count_nonzero_wrap data : forall nz,
  is_uint64 nz -> count_nonzero data nz = wrap64 (nz + nonzero_bytes data).
Proof.
  induction data as [|byt rest IH]; intros nz Hnz;
    cbn [count_nonzero nonzero_bytes].
  - rewrite Z.add_0_r. symmetry. apply wrap64_small. exact Hnz.
  - destruct (byte_is_zero byt).
    + rewrite IH by exact Hnz. reflexivity.
    + rewrite IH by apply wrap64_range. unfold u64_add.
      rewrite wrap64_idem_add. f_equal. lia.
Qed.

(** X1.  [IntrinsicGas] looks at a payload only through its length and
    its number of non-zero bytes: two payloads that agree on both - a
    payload and any rearrangement of it, say - get the same result, be
    it a price or [ErrOutOfGas]. *)
Theorem IntrinsicGas_depends_on_counts P data data' cc hs :
  length data = length data' ->
  nonzero_bytes data = nonzero_bytes data' ->
  IntrinsicGas P data cc hs = IntrinsicGas P data' cc hs.
Proof.
  intros Hlen Hnz. unfold IntrinsicGas, len64.
  rewrite !count_nonzero_wrap by (unfold is_uint64, MaxUint64; lia).
  rewrite Hlen, Hnz. reflexivity.
Qed.

Lemma IntrinsicGas_depends_on_counts_witness :
  length [x00; x07; xff] = length [xff; x00; x07]
  /\ nonzero_bytes [x00; x07; xff] = nonzero_bytes [xff; x00; x07]
  /\ IntrinsicGas frontier_params [x00; x07; xff] true true
     = IntrinsicGas frontier_params [xff; x00; x07] true true.
Proof.
  split; [reflexivity|]. split; [reflexivity|].
  exact (IntrinsicGas_depends_on_counts frontier_params [x00; x07; xff]
           [xff; x00; x07] true true eq_refl eq_refl).
Defined.

Lemma nonzero_bytes_app data more :
  nonzero_bytes (data ++ more) = nonzero_bytes data + nonzero_bytes more.
Proof.
  induction data as [|byt rest IH]; cbn [app nonzero_bytes].
  - lia.
  - rewrite IH. lia.
Qed.

(** A price is returned exactly when the unbounded total fits, and is
    that total. *)
Lemma IntrinsicGas_priced P data cc hs g :
  params_ok P -> Z.of_nat (length data) <= MaxUint64 ->
  IntrinsicGas P data cc hs = (g, None)
  <-> g = exact_intrinsic_gas P data cc hs
      /\ exact_intrinsic_gas P data cc hs <= MaxUint64.
Proof.
  intros HP Hlen.
  rewrite (IntrinsicGas_guards P data cc hs HP Hlen).
  pose proof (guards_iff_fits P data cc hs HP) as Hfit.
  destruct (nonzero_term_fits P data cc hs);
    destruct (zero_term_fits P data cc hs); cbn [andb] in Hfit.
  - split.
    + intros [= <-]. split; [reflexivity | apply Hfit; reflexivity].
    + intros [-> _]. reflexivity.
  - split; [discriminate|]. intros [_ H]. apply Hfit in H. discriminate.
  - split; [discriminate|]. intros [_ H]. apply Hfit in H. discriminate.
  - split; [discriminate|]. intros [_ H]. apply Hfit in H. discriminate.
Qed.

(** X2.  Pricing composes over concatenation and is monotone: when a
    payload [data ++ more] is priced, [data] alone is priced too, the
    longer payload costs exactly the byte charges of [more] on top, and
    no price is below the base cost. *)
Theorem IntrinsicGas_app P data more cc hs g' :
  params_ok P -> Z.of_nat (length (data ++ more)) <= MaxUint64 ->
  IntrinsicGas P (data ++ more) cc hs = (g', None) ->
  exists g,
    IntrinsicGas P data cc hs = (g, None)
    /\ g' = g + nonzero_bytes more * TxDataNonZeroGas P
              + zero_bytes more * TxDataZeroGas P
    /\ base_gas P cc hs <= g <= g'.
Proof.
  intros HP Hlen Hprice.
  assert (Hlen' : Z.of_nat (length data) <= MaxUint64).
  { rewrite length_app in Hlen. lia. }
  apply (IntrinsicGas_priced P _ cc hs g' HP Hlen) in Hprice.
  destruct Hprice as [-> Hfit].
  pose proof (nonzero_bytes_range data) as Hd.
  pose proof (nonzero_bytes_range more) as Hm.
  destruct HP as [H1 H2 [Hz0 Hz1] [Hn0 Hn1]].
  assert (Hsplit : exact_intrinsic_gas P (data ++ more) cc hs
                   = exact_intrinsic_gas P data cc hs
                     + nonzero_bytes more * TxDataNonZeroGas P
                     + zero_bytes more * TxDataZeroGas P).
  { unfold exact_intrinsic_gas, zero_bytes.
    rewrite nonzero_bytes_app, length_app, Nat2Z.inj_add. lia. }
  assert (Hmore : 0 <= nonzero_bytes more * TxDataNonZeroGas P
                       + zero_bytes more * TxDataZeroGas P).
  { unfold zero_bytes. nia. }
  assert (Hbase : base_gas P cc hs <= exact_intrinsic_gas P data cc hs).
  { unfold exact_intrinsic_gas, zero_bytes. nia. }
  exists (exact_intrinsic_gas P data cc hs). split.
  - apply IntrinsicGas_priced;
      [constructor; (assumption || lia) | exact Hlen' |].
    split; [reflexivity | lia].
  - split; [exact Hsplit | lia].
Qed.

Lemma IntrinsicGas_app_witness :
  params_ok frontier_params
  /\ Z.of_nat (length ([x60; x00] ++ [x00; x01; x02])) <= MaxUint64
  /\ IntrinsicGas frontier_params ([x60; x00] ++ [x00; x01; x02]) false true
     = (21212, None)
  /\ exists g,
       IntrinsicGas frontier_params [x60; x00] false true = (g, None)
       /\ 21212 = g + 2 * 68 + 1 * 4.
Proof.
  assert (HP : params_ok frontier_params)
    by (constructor; unfold is_uint64, MaxUint64; cbn; lia).
  split; [exact HP|]. split; [vm_compute; discriminate|].
  split; [reflexivity|].
  destruct (IntrinsicGas_app frontier_params [x60; x00] [x00; x01; x02]
              false true 21212 HP ltac:(vm_compute; discriminate) eq_refl)
    as (g & Hg & Hsum & _).
  exists g. split; [exact Hg | exact Hsum].
Defined.

(** ** useGas *)

(** X3.  Deductions compose and never wrap: on a transition whose gas
    counter is a [uint64], deducting [a] and then [b] (both not negative)
    succeeds exactly when [a + b] is covered, and then leaves what
    deducting [a + b] at once leaves, the counter being down by exactly
    [a + b]; when [a] alone is not covered the transition is returned
    unchanged with [ErrOutOfGas]. *)
Theorem useGas_compose st a b :
  is_uint64 (gas st) -> 0 <= a -> 0 <= b ->
  (gas st < a -> useGas a st = (Some ErrOutOfGas, st))
  /\ (a + b <= gas st ->
      useGas a st = (None, with_gas (gas st - a) st)
      /\ useGas b (snd (useGas a st)) = useGas (a + b) st
      /\ useGas (a + b) st = (None, with_gas (gas st - (a + b)) st))
  /\ (a <= gas st -> gas st < a + b ->
      fst (useGas b (snd (useGas a st))) = Some ErrOutOfGas
      /\ fst (useGas (a + b) st) = Some ErrOutOfGas).
Proof.
  intros Hg Ha Hb. unfold is_uint64 in Hg.
  assert (Hone : forall x, 0 <= x -> x <= gas st ->
                 useGas x st = (None, with_gas (gas st - x) st)).
  { intros x Hx Hle. unfold useGas.
    destruct (Z.ltb_spec (gas st) x); [lia|].
    rewrite u64_sub_exact by (unfold is_uint64; lia). reflexivity. }
  split; [|split].
  - intros Hlt. unfold useGas.
    destruct (Z.ltb_spec (gas st) a); [reflexivity | lia].
  - intros Hsum. split; [apply Hone; lia|]. split; [|apply Hone; lia].
    rewrite (Hone a) by lia. rewrite (Hone (a + b)) by lia. cbn [snd].
    unfold useGas. cbn [gas with_gas].
    destruct (Z.ltb_spec (gas st - a) b); [lia|].
    rewrite u64_sub_exact by (unfold is_uint64; lia).
    unfold with_gas. cbn [gp msg gas gasPrice initialGas value data state evm].
    replace (gas st - a - b) with (gas st - (a + b)) by lia. reflexivity.
  - intros Hle Hlt. split.
    + rewrite (Hone a) by lia. cbn [snd]. unfold useGas. cbn [gas with_gas].
      destruct (Z.ltb_spec (gas st - a) b); [reflexivity | lia].
    + unfold useGas.
      destruct (Z.ltb_spec (gas st) (a + b)); [reflexivity | lia].
Qed.

Lemma useGas_compose_witness :
  is_uint64 (gas call1) /\ 0 <= 21000 /\ 0 <= 9000
  /\ useGas 9000 (snd (useGas 21000 call1)) = useGas (21000 + 9000) call1
  /\ gas (snd (useGas (21000 + 9000) call1)) = 20000.
Proof.
  split; [vm_compute; split; discriminate|].
  split; [lia|]. split; [lia|].
  destruct (useGas_compose call1 21000 9000
              ltac:(vm_compute; split; discriminate) ltac:(lia) ltac:(lia))
    as (_ & Hboth & _).
  destruct (Hboth ltac:(vm_compute; discriminate)) as (_ & Hcomp & Hall).
  split; [exact Hcomp|]. rewrite Hall. by_computation.
Defined.

(** ** TransitionDb: every outcome *)

Section TransitionOutcomes.

Context (P : ProtocolParams) {X : Executor}.

Lemma Error_eqb_insufficient e :
  Error_eqb e ErrInsufficientBalance = true -> e = ErrInsufficientBalance.
Proof. destruct e; cbn; intros H; try discriminate H. reflexivity. Qed.

(** A failed pre-check hands the transition back as it was, with one of
    four errors. *)
Lemma preCheck_rejects st e st' :
  preCheck st = (Some e, st') ->
  st' = st
  /\ In e [ErrNonceTooHigh; ErrNonceTooLow; errInsufficientBalanceForGas;
           ErrGasLimitReached].
Proof.
  unfold preCheck. rewrite buyGas_cases.
  destruct (CheckNonce (msg st));
    [destruct (GetNonce (From (msg st)) (state st) <? Nonce (msg st));
     [|destruct (Nonce (msg st) <? GetNonce (From (msg st)) (state st))]|];
    try (destruct (GetBalance (From (msg st)) (state st)
                   <? Gas (msg st) * gasPrice st);
         [|destruct (gp st <? Gas (msg st))]);
    intros [= <- <-] || intros [=]; split; try reflexivity; cbn; tauto.
Qed.

Lemma TransitionDb_rejects st e st' :
  preCheck st = (Some e, st') -> TransitionDb P st = (rejected e, st).
Proof.
  intros Hpre. destruct (preCheck_rejects _ _ _ Hpre) as [-> _].
  unfold TransitionDb. rewrite Hpre. reflexivity.
Qed.

(** Every run of [TransitionDb] is of one of two kinds. *)
Lemma TransitionDb_dichotomy st0 :
  (exists e,
      fst (TransitionDb P st0) = rejected e /\ In e transition_errors)
  \/ (exists st1 g st2,
         reaches_dispatch P st0 st1 g st2
         /\ is_ErrInsufficientBalance (exec_err (execution st2)) = false
         /\ fst (TransitionDb P st0)
            = {| ret := exec_ret (execution st2);
                 usedGas := gasUsed (snd (TransitionDb P st0));
                 failed := is_failure (exec_err (execution st2));
                 err := None |}).
Proof.
  destruct (preCheck st0) as [[e|] st1] eqn:Hpre.
  { left. exists e. rewrite (TransitionDb_rejects _ _ _ Hpre). split.
    - reflexivity.
    - destruct (preCheck_rejects _ _ _ Hpre) as [_ Hin].
      cbn in Hin |- *. tauto. }
  destruct (IntrinsicGas P (data st1) (is_creation (msg st1))
              (homestead_at (evm st1))) as [g [e|]] eqn:Hig.
  { left. exists e. split.
    - unfold TransitionDb. rewrite Hpre. cbv zeta.
      unfold is_creation, homestead_at in Hig. rewrite Hig. reflexivity.
    - apply IntrinsicGas_error in Hig as [_ ->]. cbn. tauto. }
  destruct (useGas g st1) as [[e|] st2] eqn:Huse.
  { left. exists e. split.
    - unfold TransitionDb. rewrite Hpre. cbv zeta.
      unfold is_creation, homestead_at in Hig. rewrite Hig, Huse.
      reflexivity.
    - unfold useGas in Huse. destruct (gas st1 <? g); [|discriminate].
      injection Huse as <- _. cbn. tauto. }
  assert (Hreach : reaches_dispatch P st0 st1 g st2)
    by (repeat split; assumption).
  destruct (is_ErrInsufficientBalance (exec_err (execution st2))) eqn:Hvm.
  - left. exists ErrInsufficientBalance.
    rewrite (TransitionDb_stops P _ _ _ _ Hreach Hvm). cbn [fst].
    split; [|cbn; tauto].
    unfold is_ErrInsufficientBalance in Hvm.
    destruct (exec_err (execution st2)) as [e|]; [|discriminate].
    apply Error_eqb_insufficient in Hvm as ->. reflexivity.
  - right. exists st1, g, st2. split; [exact Hreach|]. split; [exact Hvm|].
    rewrite (TransitionDb_settles P _ _ _ _ Hreach Hvm). reflexivity.
Qed.

(** X4.  [TransitionDb] has two kinds of outcome and no other.  Either
    it returns one of six errors - the two nonce errors, insufficient
    balance for gas, gas limit reached, out of gas, insufficient balance
    for the transfer - always with no return data, zero gas used and the
    [failed] flag off; or it gets to the dispatch, the execution reports
    anything but insufficient balance, and it returns a nil error with
    the execution's return data, [failed] set exactly when the execution
    reported an error, and as gas used the difference [initialGas - gas]
    of the transition it leaves. *)
Theorem TransitionDb_outcomes st0 :
  (exists e,
      fst (TransitionDb P st0) = rejected e /\ In e transition_errors)
  \/ (exists st1 g st2,
         reaches_dispatch P st0 st1 g st2
         /\ is_ErrInsufficientBalance (exec_err (execution st2)) = false
         /\ fst (TransitionDb P st0)
            = {| ret := exec_ret (execution st2);
                 usedGas := gasUsed (snd (TransitionDb P st0));
                 failed := is_failure (exec_err (execution st2));
                 err := None |}).
Proof. exact (TransitionDb_dichotomy st0). Qed.

(** What [well_behaved] says about the execution a transition is
    dispatched to. *)
Lemma well_behaved_execution st :
  well_behaved X -> 0 <= gas st ->
  0 <= exec_gas (execution st) <= gas st
  /\ 0 <= GetRefund (exec_state (execution st)).
Proof.
  intros [Hcreate Hcall] Hgas. unfold execution.
  destruct (To (msg st)); [apply Hcall | apply Hcreate]; exact Hgas.
Qed.

(** A fresh transition that returns a nil error, under a well-behaved
    executor, in exact integers. *)
Lemma TransitionDb_accounted (e : EVM) statedb m pool :
  params_ok P -> well_behaved X -> is_uint64 (Gas m) -> is_uint64 pool ->
  err (fst (TransitionDb P (NewStateTransition e statedb m pool))) = None ->
  exists st1 g st2 used,
    reaches_dispatch P (NewStateTransition e statedb m pool) st1 g st2
    /\ is_ErrInsufficientBalance (exec_err (execution st2)) = false
    /\ 0 <= used <= Gas m
    /\ TransitionDb P (NewStateTransition e statedb m pool)
       = ({| ret := exec_ret (execution st2); usedGas := used;
             failed := is_failure (exec_err (execution st2)); err := None |},
          {| gp := pool - used; msg := m; gas := Gas m - used;
             gasPrice := GasPrice m; initialGas := Gas m; value := Value m;
             data := Data m;
             state :=
               AddBalance (ctx_Coinbase (evm_Context e)) (used * GasPrice m)
                 (AddBalance (From m) ((Gas m - used) * GasPrice m)
                    (exec_state (execution st2)));
             evm := e |}).
Proof.
  intros HP HX HG Hpool Herr.
  destruct (TransitionDb_dichotomy (NewStateTransition e statedb m pool))
    as [(e' & Hrej & _) | (st1 & g & st2 & Hreach & Hvm & _)].
  { rewrite Hrej in Herr. discriminate. }
  pose proof Hreach as (_ & Hig & _).
  apply (IntrinsicGas_range _ _ _ _ _ HP) in Hig.
  destruct (reaches_dispatch_fresh P _ _ _ _ _ _ _ HG Hreach)
    as (Hst2 & _ & Hg & _ & Hle).
  assert (Hgas2 : gas st2 = Gas m - g).
  { rewrite Hst2. cbn [gas]. apply u64_sub_exact.
    unfold is_uint64 in *. lia. }
  destruct (well_behaved_execution st2 HX) as [Hleft Hcounter].
  { unfold is_uint64 in *. lia. }
  destruct (TransitionDb_settled_fresh P _ _ _ _ _ _ _ HP HG Hreach Hvm
              Hleft Hcounter) as (Htr & Hr0 & Hr1).
  set (r := execution st2) in *.
  set (spent := g + (gas st2 - exec_gas r)) in *.
  set (refund := Z.min (spent / 2) (GetRefund (exec_state r))) in *.
  assert (Hspent : 0 <= spent <= Gas m)
    by (unfold spent, is_uint64 in *; lia).
  assert (Hhalf : spent / 2 <= spent)
    by (apply Z.div_le_upper_bound; lia).
  exists st1, g, st2, (spent - refund).
  split; [exact Hreach|]. split; [exact Hvm|]. split; [lia|].
  rewrite Htr. f_equal.
  assert (Hrem : exec_gas r + refund = Gas m - (spent - refund))
    by (unfold spent; lia).
  rewrite Hrem. f_equal.
  unfold AddGas. unfold is_uint64 in *.
  destruct (Z.ltb_spec (MaxUint64 - (Gas m - (spent - refund)))
              (pool - Gas m)); lia.
Qed.

(** X5.  Under a well-behaved executor, a fresh transition that returns
    a nil error takes from the gas pool exactly the gas it reports: the
    pool is down by [usedGas], which lies between zero and the gas
    limit, the pool stays non-negative, and the gas counter left is the
    limit less the gas used. *)
Theorem TransitionDb_pool_conservation (e : EVM) statedb m pool :
  params_ok P -> well_behaved X -> is_uint64 (Gas m) -> is_uint64 pool ->
  err (fst (TransitionDb P (NewStateTransition e statedb m pool))) = None ->
  0 <= usedGas (fst (TransitionDb P (NewStateTransition e statedb m pool)))
    <= Gas m
  /\ gp (snd (TransitionDb P (NewStateTransition e statedb m pool)))
     = pool
       - usedGas (fst (TransitionDb P (NewStateTransition e statedb m pool)))
  /\ 0 <= gp (snd (TransitionDb P (NewStateTransition e statedb m pool)))
  /\ gas (snd (TransitionDb P (NewStateTransition e statedb m pool)))
     = Gas m
       - usedGas (fst (TransitionDb P (NewStateTransition e statedb m pool))).
Proof.
  intros HP HX HG Hpool Herr.
  destruct (TransitionDb_accounted e statedb m pool HP HX HG Hpool Herr)
    as (st1 & g & st2 & used & Hreach & _ & Hused & ->).
  destruct (reaches_dispatch_fresh P _ _ _ _ _ _ _ HG Hreach)
    as (_ & _ & _ & _ & Hle).
  cbn [fst snd usedGas gp gas]. repeat split; lia.
Qed.

End TransitionOutcomes.

Lemma scripted_well_behaved used e refunded :
  0 <= used -> 0 <= refunded -> well_behaved (scripted used e refunded).
Proof.
  intros Hu Hr. split; intros; cbn; destruct (Z.leb_spec used g);
    (split; [lia | exact Hr]).
Qed.

(** [alice]'s call under an execution using 9000 gas with a refund
    counter of 3000: 27000 gas reported, and the pool of 100000 is at
    73000. *)
Lemma TransitionDb_pool_conservation_witness :
  params_ok frontier_params
  /\ well_behaved (scripted 9000 None 3000)
  /\ is_uint64 (Gas (transfer 50000 5))
  /\ is_uint64 100000
  /\ err (fst (TransitionDb (X := scripted 9000 None 3000) frontier_params
                 (NewStateTransition (evm7 (transfer 50000 5)) genesis
                    (transfer 50000 5) 100000))) = None
  /\ gp (snd (TransitionDb (X := scripted 9000 None 3000) frontier_params
                (NewStateTransition (evm7 (transfer 50000 5)) genesis
                   (transfer 50000 5) 100000)))
     = 100000 - 27000.
Proof.
  assert (HP : params_ok frontier_params)
    by (constructor; unfold is_uint64, MaxUint64; cbn; lia).
  assert (HX : well_behaved (scripted 9000 None 3000))
    by (apply scripted_well_behaved; lia).
  split; [exact HP|]. split; [exact HX|]. split; [u64_range|].
  split; [u64_range|]. split; [by_computation|].
  destruct (TransitionDb_pool_conservation frontier_params
              (X := scripted 9000 None 3000) (evm7 (transfer 50000 5))
              genesis (transfer 50000 5) 100000 HP HX ltac:(u64_range)
              ltac:(u64_range) ltac:(by_computation))
    as (_ & Hgp & _).
  exact (eq_trans Hgp ltac:(by_computation)).
Defined.

(** ** TransitionDb: who pays whom, and replays *)

Section TransitionPayments.

Context (P : ProtocolParams) {X : Executor}.

Lemma GetBalance_AddBalance_any a b v s :
  GetBalance b (AddBalance a v s)
  = GetBalance b s + (if decide (b = a) then v else 0).
Proof.
  unfold GetBalance at 1. unfold AddBalance, with_balances. cbn [balances].
  destruct (decide (b = a)) as [->|Hne].
  - rewrite lookup_insert_eq. reflexivity.
  - rewrite lookup_insert_ne by congruence. unfold GetBalance. cbn. lia.
Qed.

Lemma GetBalance_SubBalance_any a b v s :
  GetBalance b (SubBalance a v s)
  = GetBalance b s - (if decide (b = a) then v else 0).
Proof.
  unfold GetBalance at 1. unfold SubBalance, with_balances. cbn [balances].
  destruct (decide (b = a)) as [->|Hne].
  - rewrite lookup_insert_eq. reflexivity.
  - rewrite lookup_insert_ne by congruence. unfold GetBalance. cbn. lia.
Qed.

(** X6.  Who pays whom.  Under a well-behaved executor, a fresh
    transition that returns a nil error has charged the sender
    [gasLimit * gasPrice] before the execution started and charged
    nobody else; after the execution it hands that amount out in full:
    the sender gets [(gasLimit - usedGas) * gasPrice] back, the fee
    recipient gets [usedGas * gasPrice] (both, when they are the same
    account), and every other balance is the one the execution left. *)
Theorem TransitionDb_payments (e : EVM) statedb m pool :
  params_ok P -> well_behaved X -> is_uint64 (Gas m) -> is_uint64 pool ->
  err (fst (TransitionDb P (NewStateTransition e statedb m pool))) = None ->
  exists st1 g st2,
    reaches_dispatch P (NewStateTransition e statedb m pool) st1 g st2
    /\ (forall a,
          GetBalance a (state st2)
          = GetBalance a statedb
            - (if decide (a = From m) then Gas m * GasPrice m else 0))
    /\ (forall a,
          GetBalance a
            (state (snd (TransitionDb P (NewStateTransition e statedb m pool))))
          = GetBalance a (exec_state (execution st2))
            + (if decide (a = From m)
               then (Gas m
                     - usedGas
                         (fst (TransitionDb P
                                 (NewStateTransition e statedb m pool))))
                    * GasPrice m
               else 0)
            + (if decide (a = ctx_Coinbase (evm_Context e))
               then usedGas
                      (fst (TransitionDb P
                              (NewStateTransition e statedb m pool)))
                    * GasPrice m
               else 0)).
Proof.
  intros HP HX HG Hpool Herr.
  destruct (TransitionDb_accounted P e statedb m pool HP HX HG Hpool Herr)
    as (st1 & g & st2 & used & Hreach & _ & _ & ->).
  exists st1, g, st2. split; [exact Hreach|]. split.
  - intros a.
    destruct (reaches_dispatch_fresh P _ _ _ _ _ _ _ HG Hreach)
      as (-> & _).
    cbn [state]. apply GetBalance_SubBalance_any.
  - intros a. cbn [fst snd usedGas state].
    rewrite !GetBalance_AddBalance_any. lia.
Qed.

(** X7.  No replay of a call.  Take a message with a recipient that
    asks for nonce validation, under an executor whose calls leave the
    sender's nonce alone.  Once [TransitionDb] has got as far as the
    dispatch - whatever the call then reports - the same message
    presented again on the world state it left fails the pre-check with
    [ErrNonceTooLow], in any environment and against any gas pool. *)
Theorem call_cannot_be_replayed (e : EVM) statedb m pool st1 g st2 recipient
    (e' : EVM) pool' :
  CheckNonce m = true -> To m = Some recipient ->
  0 <= Nonce m < MaxUint64 ->
  call_keeps_nonce X (From m) ->
  reaches_dispatch P (NewStateTransition e statedb m pool) st1 g st2 ->
  preCheck
    (NewStateTransition e'
       (state (snd (TransitionDb P (NewStateTransition e statedb m pool))))
       m pool')
  = (Some ErrNonceTooLow,
     NewStateTransition e'
       (state (snd (TransitionDb P (NewStateTransition e statedb m pool))))
       m pool').
Proof.
  intros Hcheck Hto Hrange Hkeep Hreach.
  pose proof (TransitionDb_nonces P _ _ _ _ Hreach) as Hnonces.
  assert (Hobserved : GetNonce (From m) statedb = Nonce m).
  { destruct Hreach as (Hpre & _). unfold preCheck in Hpre.
    cbn [NewStateTransition msg state] in Hpre. rewrite Hcheck in Hpre.
    destruct (Z.ltb_spec (GetNonce (From m) statedb) (Nonce m));
      [discriminate|].
    destruct (Z.ltb_spec (Nonce m) (GetNonce (From m) statedb));
      [discriminate|]. lia. }
  assert (Hafter :
            GetNonce (From m)
              (state (snd (TransitionDb P
                             (NewStateTransition e statedb m pool))))
            = Nonce m + 1).
  { unfold GetNonce at 1. rewrite Hnonces.
    change (GetNonce (From m) (exec_state (execution st2)) = Nonce m + 1).
    pose proof (reaches_dispatch_frame P _ _ _ _ Hreach) as Hst2.
    cbn [NewStateTransition gp msg gas gasPrice value data state evm]
      in Hst2.
    unfold execution. rewrite Hst2. cbn [msg state]. rewrite Hto.
    rewrite Hkeep, GetNonce_SetNonce.
    change (GetNonce (From m)
              (SubBalance (From m) (Gas m * GasPrice m) statedb))
      with (GetNonce (From m) statedb).
    rewrite Hobserved. apply u64_add_exact. unfold is_uint64. lia. }
  unfold preCheck. cbn [NewStateTransition msg state].
  rewrite Hcheck, Hafter.
  destruct (Z.ltb_spec (Nonce m + 1) (Nonce m)); [lia|].
  destruct (Z.ltb_spec (Nonce m) (Nonce m + 1)); [reflexivity | lia].
Qed.

End TransitionPayments.

Lemma TransitionDb_payments_witness :
  params_ok frontier_params
  /\ well_behaved (scripted 9000 None 3000)
  /\ is_uint64 (Gas (transfer 50000 5))
  /\ is_uint64 100000
  /\ err (fst (TransitionDb (X := scripted 9000 None 3000) frontier_params
                 call0)) = None
  /\ exists st2,
       GetBalance alice (state st2) = GetBalance alice genesis - 50000 * 2
       /\ GetBalance miner
            (state (snd (TransitionDb (X := scripted 9000 None 3000)
                           frontier_params call0)))
          = GetBalance miner
              (exec_state (execution (X := scripted 9000 None 3000) st2))
            + 0
            + usedGas (fst (TransitionDb (X := scripted 9000 None 3000)
                              frontier_params call0)) * 2.
Proof.
  assert (HP : params_ok frontier_params)
    by (constructor; unfold is_uint64, MaxUint64; cbn; lia).
  assert (HX : well_behaved (scripted 9000 None 3000))
    by (apply scripted_well_behaved; lia).
  split; [exact HP|]. split; [exact HX|]. split; [u64_range|].
  split; [u64_range|]. split; [by_computation|].
  destruct (TransitionDb_payments frontier_params
              (X := scripted 9000 None 3000) (evm7 (transfer 50000 5))
              genesis (transfer 50000 5) 100000 HP HX ltac:(u64_range)
              ltac:(u64_range) ltac:(by_computation))
    as (st1 & g & st2 & _ & Hbefore & Hafter).
  exists st2. split; [exact (Hbefore alice) | exact (Hafter miner)].
Defined.

(** [alice]'s call, whose execution fails, cannot be presented again. *)
Lemma call_cannot_be_replayed_witness :
  CheckNonce (transfer 50000 5) = true
  /\ To (transfer 50000 5) = Some bob
  /\ 0 <= Nonce (transfer 50000 5) < MaxUint64
  /\ call_keeps_nonce (scripted 9000 (Some (ErrExecution 1)) 0) alice
  /\ reaches_dispatch frontier_params call0 call1 21000 call2
  /\ fst (preCheck
            (NewStateTransition (evm7 (transfer 50000 5))
               (state (snd (TransitionDb
                              (X := scripted 9000 (Some (ErrExecution 1)) 0)
                              frontier_params call0)))
               (transfer 50000 5) 73000))
     = Some ErrNonceTooLow.
Proof.
  assert (Hreach : reaches_dispatch frontier_params call0 call1 21000 call2)
    by (repeat split; by_computation).
  assert (Hkeep : call_keeps_nonce (scripted 9000 (Some (ErrExecution 1)) 0)
                    alice) by (intros e c r i g v s; reflexivity).
  split; [reflexivity|]. split; [reflexivity|].
  split; [unfold MaxUint64; cbn; lia|].
  split; [exact Hkeep|]. split; [exact Hreach|].
  unfold call0.
  rewrite (call_cannot_be_replayed frontier_params
             (X := scripted 9000 (Some (ErrExecution 1)) 0)
             (evm7 (transfer 50000 5)) genesis (transfer 50000 5) 100000
             call1 21000 call2 bob (evm7 (transfer 50000 5)) 73000
             eq_refl eq_refl ltac:(unfold MaxUint64; cbn; lia)
             Hkeep Hreach).
  reflexivity.
Defined.

(** ** ApplyTransaction: every outcome *)

Section ProcessorOutcomes.

Context (P : ProtocolParams) {X : Executor} {C : Collaborators}.

Lemma ApplyTransaction_shape config bc author pool statedb header tx total
    cfg :
  (exists e sh,
      ApplyTransaction P config bc author pool statedb header tx total cfg
      = (None, 0, Some e, sh)
      /\ sh_usedGas sh = total)
  \/ (exists receipt sh,
         ApplyTransaction P config bc author pool statedb header tx total cfg
         = (Some receipt, GasUsed receipt, None, sh)
         /\ CumulativeGasUsed receipt = u64_add total (GasUsed receipt)
         /\ sh_usedGas sh = CumulativeGasUsed receipt
         /\ TxHash receipt = tx_Hash tx
         /\ Logs receipt = GetLogs (tx_Hash tx) (sh_statedb sh)
         /\ (IsByzantium config (Number header) = true ->
             PostState receipt = [])
         /\ (Status receipt = ReceiptStatusFailed
             \/ Status receipt = ReceiptStatusSuccessful)).
Proof.
  destruct (tx_signer_err tx) as [e|] eqn:Hsig.
  { left. exists e. eexists. unfold ApplyTransaction, AsMessage.
    rewrite Hsig. split; reflexivity. }
  destruct (TransitionDb P
              (NewStateTransition
                 (NewEVM (NewEVMContext (tx_message tx) header bc author)
                    config cfg) statedb (tx_message tx) pool))
    as [r st] eqn:Htr.
  rewrite (ApplyTransaction_cases P _ _ _ _ _ _ _ _ _ _ _ Hsig Htr).
  destruct (err r) as [e|].
  { left. exists e. eexists. split; reflexivity. }
  right. cbv zeta. eexists (Build_Receipt _ _ _ _ _ _ _ _). eexists.
  split; [reflexivity|].
  cbn [CumulativeGasUsed GasUsed sh_usedGas TxHash Logs sh_statedb PostState
       Status].
  repeat split.
  - intros Hbyz. unfold post_root. rewrite Hbyz. reflexivity.
  - destruct (failed r); [left | right]; reflexivity.
Qed.

(** X8.  [ApplyTransaction] has two kinds of outcome and no other.  On
    an error there is no receipt, the gas returned is zero and the
    running gas total is what it was.  Otherwise the error is nil and
    there is a receipt: its [GasUsed] is the gas returned, its
    [CumulativeGasUsed] is the running total with that gas added - which
    is the total handed on -, its [TxHash] is the transaction's, its
    logs are the ones the world state holds for that hash, its status is
    one of the two status values, and after Byzantium it carries no
    state root. *)
Theorem ApplyTransaction_outcomes config bc author pool statedb header tx
    total cfg :
  (exists e sh,
      ApplyTransaction P config bc author pool statedb header tx total cfg
      = (None, 0, Some e, sh)
      /\ sh_usedGas sh = total)
  \/ (exists receipt sh,
         ApplyTransaction P config bc author pool statedb header tx total cfg
         = (Some receipt, GasUsed receipt, None, sh)
         /\ CumulativeGasUsed receipt = u64_add total (GasUsed receipt)
         /\ sh_usedGas sh = CumulativeGasUsed receipt
         /\ TxHash receipt = tx_Hash tx
         /\ Logs receipt = GetLogs (tx_Hash tx) (sh_statedb sh)
         /\ (IsByzantium config (Number header) = true ->
             PostState receipt = [])
         /\ (Status receipt = ReceiptStatusFailed
             \/ Status receipt = ReceiptStatusSuccessful)).
Proof. apply ApplyTransaction_shape. Qed.

(** X9.  A transaction turned away before any gas is bought - its
    signer does not resolve, or its pre-check fails (nonce too high or
    too low, balance below the gas cost, pool below the gas limit) -
    leaves the gas pool, the world state and the running gas total
    exactly as they were: the caller may go on with the next transaction
    as if this one had never been tried. *)
Theorem ApplyTransaction_rejection_is_clean config bc author pool statedb
    header tx total cfg e :
  tx_signer_err tx = Some e
  \/ (tx_signer_err tx = None
      /\ fst (preCheck
                (NewStateTransition
                   (NewEVM (NewEVMContext (tx_message tx) header bc author)
                      config cfg) statedb (tx_message tx) pool)) = Some e) ->
  ApplyTransaction P config bc author pool statedb header tx total cfg
  = (None, 0, Some e,
     {| sh_gp := pool; sh_statedb := statedb; sh_usedGas := total |}).
Proof.
  intros [Hsig | [Hsig Hpre]].
  - unfold ApplyTransaction, AsMessage. rewrite Hsig. reflexivity.
  - destruct (preCheck
                (NewStateTransition
                   (NewEVM (NewEVMContext (tx_message tx) header bc author)
                      config cfg) statedb (tx_message tx) pool))
      as [e0 st'] eqn:Hpc.
    cbn [fst] in Hpre. subst e0.
    rewrite (ApplyTransaction_cases P _ _ _ _ _ _ _ _ _ _ _ Hsig
               (TransitionDb_rejects P _ _ _ Hpc)).
    reflexivity.
Qed.

(** X10.  The receipt's status mirrors the execution: for a transaction
    whose signer resolves and whose transition gets to the dispatch,
    with an execution that does not report insufficient balance, there
    is a receipt, and its status is successful exactly when the
    execution reported no error (and failed exactly when it reported
    one). *)
Theorem receipt_status_mirrors_execution config bc author pool statedb header
    tx total cfg st1 g st2 :
  tx_signer_err tx = None ->
  reaches_dispatch P
    (NewStateTransition
       (NewEVM (NewEVMContext (tx_message tx) header bc author) config cfg)
       statedb (tx_message tx) pool) st1 g st2 ->
  is_ErrInsufficientBalance (exec_err (execution st2)) = false ->
  exists receipt sh,
    ApplyTransaction P config bc author pool statedb header tx total cfg
    = (Some receipt, GasUsed receipt, None, sh)
    /\ (Status receipt = ReceiptStatusSuccessful
        <-> exec_err (execution st2) = None)
    /\ (Status receipt = ReceiptStatusFailed
        <-> exec_err (execution st2) <> None).
Proof.
  intros Hsig Hreach Hvm.
  pose proof (TransitionDb_settles P _ _ _ _ Hreach Hvm) as Htr.
  cbv zeta in Htr.
  rewrite (ApplyTransaction_cases P _ _ _ _ _ _ _ _ _ _ _ Hsig Htr).
  cbn [err failed usedGas]. cbv zeta.
  eexists (Build_Receipt _ _ _ _ _ _ _ _). eexists. split; [reflexivity|].
  cbn [Status].
  destruct (exec_err (execution st2)) as [e|]; cbn [is_failure];
    unfold ReceiptStatusFailed, ReceiptStatusSuccessful;
    repeat split; intros; congruence.
Qed.

End ProcessorOutcomes.

(** A transfer carrying nonce 4 when [alice]'s account is at 5 is turned
    away, and nothing has moved. *)
Lemma ApplyTransaction_rejection_is_clean_witness :
  (tx_signer_err (signed 41%N (transfer 50000 4)) = Some ErrNonceTooLow
   \/ (tx_signer_err (signed 41%N (transfer 50000 4)) = None
       /\ fst (preCheck
                 (NewStateTransition
                    (NewEVM
                       (NewEVMContext
                          (tx_message (signed 41%N (transfer 50000 4)))
                          header7 tt None) always_on tt)
                    genesis (tx_message (signed 41%N (transfer 50000 4)))
                    100000)) = Some ErrNonceTooLow))
  /\ ApplyTransaction (X := scripted 0 None 0) (C := plain_collaborators)
       frontier_params always_on tt None 100000 genesis header7
       (signed 41%N (transfer 50000 4)) 7 tt
     = (None, 0, Some ErrNonceTooLow,
        {| sh_gp := 100000; sh_statedb := genesis; sh_usedGas := 7 |}).
Proof.
  assert (H : tx_signer_err (signed 41%N (transfer 50000 4))
              = Some ErrNonceTooLow
              \/ (tx_signer_err (signed 41%N (transfer 50000 4)) = None
                  /\ fst (preCheck
                            (NewStateTransition
                               (NewEVM
                                  (NewEVMContext
                                     (tx_message
                                        (signed 41%N (transfer 50000 4)))
                                     header7 tt None) always_on tt)
                               genesis
                               (tx_message (signed 41%N (transfer 50000 4)))
                               100000)) = Some ErrNonceTooLow))
    by (right; split; by_computation).
  split; [exact H|].
  exact (ApplyTransaction_rejection_is_clean frontier_params
           (X := scripted 0 None 0) (C := plain_collaborators)
           always_on tt None 100000 genesis header7
           (signed 41%N (transfer 50000 4)) 7 tt ErrNonceTooLow H).
Defined.

(** [alice]'s call with an execution that succeeds: a receipt of
    successful status. *)
Lemma receipt_status_mirrors_execution_witness :
  tx_signer_err (signed 42%N (transfer 50000 5)) = None
  /\ reaches_dispatch frontier_params call0 call1 21000 call2
  /\ is_ErrInsufficientBalance
       (exec_err (execution (X := scripted 9000 None 0) call2)) = false
  /\ exists receipt sh,
       ApplyTransaction (X := scripted 9000 None 0)
         (C := plain_collaborators) frontier_params always_on tt None 100000
         genesis header7 (signed 42%N (transfer 50000 5)) 0 tt
       = (Some receipt, GasUsed receipt, None, sh)
       /\ Status receipt = ReceiptStatusSuccessful.
Proof.
  assert (Hreach : reaches_dispatch frontier_params call0 call1 21000 call2)
    by (repeat split; by_computation).
  split; [reflexivity|]. split; [exact Hreach|]. split; [reflexivity|].
  destruct (receipt_status_mirrors_execution frontier_params
              (X := scripted 9000 None 0) (C := plain_collaborators)
              always_on tt None 100000 genesis header7
              (signed 42%N (transfer 50000 5)) 0 tt call1 21000 call2
              eq_refl Hreach eq_refl)
    as (receipt & sh & Happ & Hok & _).
  exists receipt, sh. split; [exact Happ|]. apply Hok. reflexivity.
Defined.

(** ** Process: every outcome, and the gas it reports *)

Section BlockOutcomes.

Context (P : ProtocolParams) {X : Executor} {C : Collaborators}.

Lemma apply_at_shape config bc block cfg tx i sh :
  (exists e sh',
      apply_at P config bc block cfg tx i sh = (None, 0, Some e, sh'))
  \/ (exists receipt sh',
         apply_at P config bc block cfg tx i sh
         = (Some receipt, GasUsed receipt, None, sh')
         /\ CumulativeGasUsed receipt
            = u64_add (sh_usedGas sh) (GasUsed receipt)
         /\ sh_usedGas sh' = CumulativeGasUsed receipt
         /\ TxHash receipt = tx_Hash tx).
Proof.
  unfold apply_at.
  destruct (ApplyTransaction_shape P config bc None (sh_gp sh)
              (Prepare (tx_Hash tx) (block_Hash block) i (sh_statedb sh))
              (block_Header block) tx (sh_usedGas sh) cfg)
    as [(e & sh' & Happ & _)
       | (receipt & sh' & Happ & Hcum & Htot & Hhash & _)].
  - left. exists e, sh'. exact Happ.
  - right. exists receipt, sh'. repeat split; assumption.
Qed.

(** What a run of successful applications has appended. *)
Lemma apply_prefix_trace config bc block cfg txs :
  forall i rs ls sh rs' ls' sh',
  apply_prefix P config bc block cfg txs i rs ls sh = Some (rs', ls', sh') ->
  exists new,
    rs' = rs ++ new
    /\ ls' = ls ++ concat (map Logs new)
    /\ map TxHash new = map tx_Hash txs
    /\ map CumulativeGasUsed new
       = running_totals (sh_usedGas sh) (map GasUsed new)
    /\ sh_usedGas sh' = fold_left u64_add (map GasUsed new) (sh_usedGas sh).
Proof.
  induction txs as [|tx rest IH]; intros i rs ls sh rs' ls' sh' Hrun.
  - cbn in Hrun. injection Hrun as <- <- <-. exists [].
    rewrite !app_nil_r. repeat split.
  - cbn [apply_prefix] in Hrun.
    destruct (apply_at_shape config bc block cfg tx i sh)
      as [(e & sh1 & Happ) | (receipt & sh1 & Happ & Hcum & Htot & Hhash)];
      rewrite Happ in Hrun; [discriminate|].
    destruct (IH _ _ _ _ _ _ _ Hrun)
      as (new & -> & -> & Hhashes & Hcums & Hsum).
    exists (receipt :: new).
    cbn [map concat running_totals fold_left].
    rewrite <- !app_assoc. cbn [app].
    rewrite Hhash, Hhashes, Hcum, Hsum.
    rewrite Htot, Hcum in Hcums. rewrite Hcums.
    rewrite Htot, Hcum. repeat split.
Qed.

(** The loop, by what [apply_prefix] makes of its transactions. *)
Lemma Process_loop_outcome config bc block cfg txs :
  forall i rs ls sh,
  match apply_prefix P config bc block cfg txs i rs ls sh with
  | Some (rs', ls', sh') =>
      Process_loop P config bc block cfg txs i rs ls sh
      = ({| res_receipts := rs'; res_logs := ls';
            res_usedGas := sh_usedGas sh'; res_err := None |},
         engine_Finalize (block_Header block) (sh_statedb sh')
           (Transactions block) (Uncles block) rs')
  | None =>
      exists e,
        fst (Process_loop P config bc block cfg txs i rs ls sh)
        = {| res_receipts := []; res_logs := []; res_usedGas := 0;
             res_err := Some e |}
  end.
Proof.
  induction txs as [|tx rest IH]; intros i rs ls sh.
  - reflexivity.
  - cbn [apply_prefix Process_loop]. fold (apply_at P config bc block cfg tx i sh).
    destruct (apply_at_shape config bc block cfg tx i sh)
      as [(e & sh1 & Happ) | (receipt & sh1 & Happ & _)]; rewrite Happ.
    + exists e. reflexivity.
    + apply IH.
Qed.

(** X11.  [Process] has two kinds of outcome and no other.  Either it
    returns an error, with no receipts, no logs and a zero gas total; or
    it returns a nil error with exactly one receipt per transaction, in
    the block's order (the receipts' transaction hashes are the
    transactions' hashes), the logs being the receipts' logs one after
    the other, and the world state being what the consensus engine's
    [Finalize] made of the state the last transaction left, given those
    receipts. *)
Theorem Process_outcomes config bc block statedb cfg :
  (exists e,
      fst (Process P config bc block statedb cfg)
      = {| res_receipts := []; res_logs := []; res_usedGas := 0;
           res_err := Some e |})
  \/ (res_err (fst (Process P config bc block statedb cfg)) = None
      /\ map TxHash (res_receipts (fst (Process P config bc block statedb cfg)))
         = map tx_Hash (Transactions block)
      /\ res_logs (fst (Process P config bc block statedb cfg))
         = concat
             (map Logs
                (res_receipts (fst (Process P config bc block statedb cfg))))
      /\ exists sh,
           apply_prefix P config bc block cfg (Transactions block) 0 [] []
             (block_start config block statedb)
           = Some (res_receipts (fst (Process P config bc block statedb cfg)),
                   res_logs (fst (Process P config bc block statedb cfg)), sh)
           /\ snd (Process P config bc block statedb cfg)
              = engine_Finalize (block_Header block) (sh_statedb sh)
                  (Transactions block) (Uncles block)
                  (res_receipts
                     (fst (Process P config bc block statedb cfg)))).
Proof.
  unfold Process. fold (block_start config block statedb).
  pose proof (Process_loop_outcome config bc block cfg (Transactions block)
                0 [] [] (block_start config block statedb)) as Hloop.
  destruct (apply_prefix P config bc block cfg (Transactions block) 0 [] []
              (block_start config block statedb))
    as [[[rs ls] sh]|] eqn:Hrun.
  - right. rewrite Hloop. cbn [fst snd res_err res_receipts res_logs].
    destruct (apply_prefix_trace _ _ _ _ _ _ _ _ _ _ _ _ Hrun)
      as (new & -> & -> & Hhashes & _).
    cbn [app]. split; [reflexivity|]. split; [exact Hhashes|].
    split; [reflexivity|]. exists sh. split; reflexivity.
  - left. exact Hloop.
Qed.

(** X12.  The gas [Process] reports is always the sum, in [uint64]
    arithmetic, of the gas of the receipts it returns, and every
    receipt's cumulative gas is the running total up to and including
    its transaction - on the error outcome as well, where both are
    empty. *)
Theorem Process_gas_totals config bc block statedb cfg :
  map CumulativeGasUsed
    (res_receipts (fst (Process P config bc block statedb cfg)))
  = running_totals 0
      (map GasUsed
         (res_receipts (fst (Process P config bc block statedb cfg))))
  /\ res_usedGas (fst (Process P config bc block statedb cfg))
     = fold_left u64_add
         (map GasUsed
            (res_receipts (fst (Process P config bc block statedb cfg))))
         0.
Proof.
  unfold Process. fold (block_start config block statedb).
  pose proof (Process_loop_outcome config bc block cfg (Transactions block)
                0 [] [] (block_start config block statedb)) as Hloop.
  destruct (apply_prefix P config bc block cfg (Transactions block) 0 [] []
              (block_start config block statedb))
    as [[[rs ls] sh]|] eqn:Hrun.
  - rewrite Hloop. cbn [fst res_receipts res_usedGas].
    destruct (apply_prefix_trace _ _ _ _ _ _ _ _ _ _ _ _ Hrun)
      as (new & -> & _ & _ & Hcums & Hsum).
    cbn [app]. split; [exact Hcums | exact Hsum].
  - destruct Hloop as [e ->]. split; reflexivity.
Qed.

End BlockOutcomes.

(** ** Process: gas stays within the block's limit *)

Section BlockGas.

Context (P : ProtocolParams) {X : Executor} {C : Collaborators}.

(** One successful application in the loop, under a well-behaved
    executor: the pool loses what the receipt reports. *)
Lemma apply_at_accounted config bc block cfg tx i sh receipt g e sh' :
  params_ok P -> well_behaved X ->
  is_uint64 (Gas (tx_message tx)) -> is_uint64 (sh_gp sh) ->
  apply_at P config bc block cfg tx i sh = (Some receipt, g, e, sh') ->
  0 <= GasUsed receipt <= sh_gp sh
  /\ sh_gp sh' = sh_gp sh - GasUsed receipt
  /\ sh_usedGas sh' = u64_add (sh_usedGas sh) (GasUsed receipt).
Proof.
  intros HP HX HG Hpool Happ. unfold apply_at in Happ.
  destruct (tx_signer_err tx) as [e0|] eqn:Hsig.
  { unfold ApplyTransaction, AsMessage in Happ. rewrite Hsig in Happ.
    discriminate. }
  set (st0 := NewStateTransition
                (NewEVM (NewEVMContext (tx_message tx) (block_Header block)
                           bc None) config cfg)
                (Prepare (tx_Hash tx) (block_Hash block) i (sh_statedb sh))
                (tx_message tx) (sh_gp sh)) in *.
  destruct (TransitionDb P st0) as [r st] eqn:Htr.
  rewrite (ApplyTransaction_cases P _ _ _ _ _ _ _ _ _ _ _ Hsig Htr) in Happ.
  destruct (err r) as [e1|] eqn:Herr; [discriminate|].
  assert (Herr' : err (fst (TransitionDb P st0)) = None)
    by (rewrite Htr; exact Herr).
  destruct (TransitionDb_accounted P _ _ _ _ HP HX HG Hpool Herr')
    as (st1 & g0 & st2 & used & Hreach & _ & Hused & Hout).
  destruct (reaches_dispatch_fresh P _ _ _ _ _ _ _ HG Hreach)
    as (_ & _ & _ & _ & Hle).
  fold st0 in Hout. rewrite Htr in Hout. injection Hout as -> ->.
  cbv zeta in Happ. injection Happ as <- _ _ <-.
  cbn [GasUsed usedGas sh_gp sh_usedGas gp]. repeat split; lia.
Qed.

(** The loop invariant: the pool and the running total add up to what
    they added up to at the start, with no wrap-around. *)
Lemma apply_prefix_conserves config bc block cfg txs :
  params_ok P -> well_behaved X ->
  forall i rs ls sh rs' ls' sh',
  Forall (fun tx => is_uint64 (Gas (tx_message tx))) txs ->
  0 <= sh_gp sh -> 0 <= sh_usedGas sh ->
  sh_gp sh + sh_usedGas sh <= MaxUint64 ->
  apply_prefix P config bc block cfg txs i rs ls sh = Some (rs', ls', sh') ->
  exists new,
    rs' = rs ++ new
    /\ Forall (fun r => 0 <= GasUsed r) new
    /\ sh_usedGas sh' = sh_usedGas sh + total_of (map GasUsed new)
    /\ sh_gp sh' = sh_gp sh - total_of (map GasUsed new)
    /\ 0 <= sh_gp sh'.
Proof.
  intros HP HX.
  induction txs as [|tx rest IH];
    intros i rs ls sh rs' ls' sh' Hall Hgp Htot Hsum Hrun.
  - cbn in Hrun. injection Hrun as <- <- <-. exists [].
    rewrite app_nil_r. cbn. repeat split; [constructor | lia | lia | lia].
  - cbn [apply_prefix] in Hrun.
    destruct (apply_at P config bc block cfg tx i sh)
      as [[[[receipt|] g] [e|]] sh1] eqn:Happ; try discriminate.
    inversion Hall as [|? ? HG Hrest]; subst.
    assert (Hpool : is_uint64 (sh_gp sh)) by (unfold is_uint64; lia).
    destruct (apply_at_accounted _ _ _ _ _ _ _ _ _ _ _ HP HX HG Hpool Happ)
      as (Hused & Hgp1 & Htot1).
    rewrite u64_add_exact in Htot1 by (unfold is_uint64; lia).
    assert (Hgp2 : 0 <= sh_gp sh1) by lia.
    assert (Htot2 : 0 <= sh_usedGas sh1) by lia.
    assert (Hsum2 : sh_gp sh1 + sh_usedGas sh1 <= MaxUint64) by lia.
    destruct (IH _ _ _ _ _ _ _ Hrest Hgp2 Htot2 Hsum2 Hrun)
      as (new & -> & Hnew & Htot' & Hgp' & Hpos).
    exists (receipt :: new). rewrite <- app_assoc. cbn [app map].
    change (total_of (GasUsed receipt :: map GasUsed new))
      with (GasUsed receipt + total_of (map GasUsed new)).
    repeat split; [constructor; [lia | exact Hnew] | lia | lia | lia].
Qed.

(** X13.  Gas conservation over a block.  Under a well-behaved
    executor, for a block whose gas limit and whose transactions' gas
    limits are [uint64] values: when [Process] returns a nil error, no
    receipt's gas is negative, the gas total it reports is the plain
    integer sum of the receipts' gas - nothing wrapped -, that sum does
    not exceed the block's gas limit, and the gas pool the last
    transaction left holds exactly the limit less the sum. *)
Theorem Process_gas_conservation config bc block statedb cfg :
  params_ok P -> well_behaved X ->
  is_uint64 (GasLimit (block_Header block)) ->
  Forall (fun tx => is_uint64 (Gas (tx_message tx))) (Transactions block) ->
  res_err (fst (Process P config bc block statedb cfg)) = None ->
  Forall (fun r => 0 <= GasUsed r)
    (res_receipts (fst (Process P config bc block statedb cfg)))
  /\ res_usedGas (fst (Process P config bc block statedb cfg))
     = total_of
         (map GasUsed
            (res_receipts (fst (Process P config bc block statedb cfg))))
  /\ res_usedGas (fst (Process P config bc block statedb cfg))
     <= GasLimit (block_Header block)
  /\ exists sh,
       apply_prefix P config bc block cfg (Transactions block) 0 [] []
         (block_start config block statedb)
       = Some (res_receipts (fst (Process P config bc block statedb cfg)),
               res_logs (fst (Process P config bc block statedb cfg)), sh)
       /\ sh_gp sh
          = GasLimit (block_Header block)
            - res_usedGas (fst (Process P config bc block statedb cfg)).
Proof.
  intros HP HX HL Hall Herr.
  unfold Process in *. fold (block_start config block statedb) in *.
  pose proof (Process_loop_outcome P config bc block cfg (Transactions block)
                0 [] [] (block_start config block statedb)) as Hloop.
  destruct (apply_prefix P config bc block cfg (Transactions block) 0 [] []
              (block_start config block statedb))
    as [[[rs ls] sh]|] eqn:Hrun.
  2: { destruct Hloop as [e He]. rewrite He in Herr. discriminate. }
  rewrite Hloop. cbn [fst res_receipts res_usedGas res_logs].
  assert (Hstart : sh_gp (block_start config block statedb)
                   = GasLimit (block_Header block)).
  { unfold block_start, AddGas. cbn [sh_gp]. unfold is_uint64 in HL.
    destruct (Z.ltb_spec (MaxUint64 - GasLimit (block_Header block)) 0); lia. }
  assert (Hused0 : sh_usedGas (block_start config block statedb) = 0)
    by reflexivity.
  unfold is_uint64 in HL.
  assert (H1 : 0 <= sh_gp (block_start config block statedb)) by lia.
  assert (H2 : 0 <= sh_usedGas (block_start config block statedb)) by lia.
  assert (H3 : sh_gp (block_start config block statedb)
               + sh_usedGas (block_start config block statedb)
               <= MaxUint64) by lia.
  destruct (apply_prefix_conserves config bc block cfg (Transactions block)
              HP HX 0 [] [] (block_start config block statedb) rs ls sh Hall
              H1 H2 H3 Hrun)
    as (new & Hrs & Hnew & Htot & Hgp & Hpos).
  cbn [app] in Hrs. subst new.
  rewrite Hused0 in Htot. rewrite Hstart in Hgp.
  split; [exact Hnew|]. split; [lia|]. split; [lia|].
  exists sh. split; [reflexivity | lia].
Qed.

End BlockGas.

(** The roomy block under an execution that uses up to 9000 gas and
    leaves a refund counter of 3000: 27000 gas for each of the two
    calls, 54000 in all. *)
Lemma Process_gas_conservation_witness :
  params_ok frontier_params
  /\ well_behaved (scripted 9000 None 3000)
  /\ is_uint64 (GasLimit (block_Header roomy))
  /\ Forall (fun tx => is_uint64 (Gas (tx_message tx))) (Transactions roomy)
  /\ res_err (fst (Process (X := scripted 9000 None 3000)
                     (C := plain_collaborators) frontier_params always_on tt
                     roomy genesis tt)) = None
  /\ res_usedGas (fst (Process (X := scripted 9000 None 3000)
                         (C := plain_collaborators) frontier_params always_on
                         tt roomy genesis tt)) = 27000 + (27000 + 0)
  /\ res_usedGas (fst (Process (X := scripted 9000 None 3000)
                         (C := plain_collaborators) frontier_params always_on
                         tt roomy genesis tt)) <= 100000.
Proof.
  assert (HP : params_ok frontier_params)
    by (constructor; unfold is_uint64, MaxUint64; cbn; lia).
  assert (HX : well_behaved (scripted 9000 None 3000))
    by (apply scripted_well_behaved; lia).
  assert (Hall : Forall (fun tx => is_uint64 (Gas (tx_message tx)))
                   (Transactions roomy))
    by (repeat constructor; u64_range).
  split; [exact HP|]. split; [exact HX|]. split; [u64_range|].
  split; [exact Hall|]. split; [by_computation|].
  destruct (Process_gas_conservation frontier_params
              (X := scripted 9000 None 3000) (C := plain_collaborators)
              always_on tt roomy genesis tt HP HX ltac:(u64_range) Hall
              ltac:(by_computation))
    as (_ & Hsum & Hle & _).
  split; [exact (eq_trans Hsum ltac:(by_computation)) | exact Hle].
Defined.

(** ** buyGas: what a purchase can and cannot touch *)

(** X14.  A purchase never overdraws.  Whenever [buyGas] succeeds, on
    any transition, the sender's balance after the debit is not
    negative and neither is the gas pool; no other account's balance
    has changed, and nonces, refund counter and logs are as they
    were. *)
Theorem buyGas_never_overdraws st st' :
  buyGas st = (None, st') ->
  0 <= GetBalance (From (msg st)) (state st')
  /\ 0 <= gp st'
  /\ (forall a, a <> From (msg st) ->
      GetBalance a (state st') = GetBalance a (state st))
  /\ nonces (state st') = nonces (state st)
  /\ refund (state st') = refund (state st)
  /\ logs (state st') = logs (state st).
Proof.
  rewrite buyGas_cases.
  destruct (Z.ltb_spec (GetBalance (From (msg st)) (state st))
              (Gas (msg st) * gasPrice st)); [discriminate|].
  destruct (Z.ltb_spec (gp st) (Gas (msg st))); [discriminate|].
  intros [= <-]. cbn [state gp].
  split; [rewrite GetBalance_SubBalance; lia|]. split; [lia|].
  split; [|repeat split].
  intros a Hne. unfold GetBalance at 1. unfold SubBalance, with_balances.
  cbn [balances]. rewrite lookup_insert_ne by congruence. reflexivity.
Qed.

Lemma buyGas_never_overdraws_witness :
  buyGas call0 = (None, call1)
  /\ 0 <= GetBalance alice (state call1)
  /\ 0 <= gp call1
  /\ GetBalance bob (state call1) = GetBalance bob (state call0).
Proof.
  assert (Hbuy : buyGas call0 = (None, call1)) by by_computation.
  split; [exact Hbuy|].
  destruct (buyGas_never_overdraws call0 call1 Hbuy)
    as (Hbal & Hpool & Hothers & _).
  split; [exact Hbal|]. split; [exact Hpool|].
  apply Hothers. discriminate.
Defined.
